(** * Bytecode tracer: operand-stack view, call-event tracer and line-table
    rewriting (bytecode_tracer.py), modelled as a shallow embedding.

    Python values are an inductive type, the interpreter's function objects
    live in a store indexed by reference, exceptions are values of an error
    monad that keeps the state reached before the raise. *)

From Stdlib Require Import List ZArith String Ascii Bool Lia.
From Stdlib Require Import Strings.Byte DecimalString.
Import ListNotations.
Open Scope Z_scope.
Set Warnings "-register-all".

(** ** Python values *)

(** A code object is the fourteen-argument [CodeType] of Python 2; its
    constant pool holds arbitrary values, among them nested code objects. *)
Inductive value : Type :=
| VNone
| VInt (n : Z)
| VStr (s : string)
| VTuple (items : list value)
| VList (items : list value)
| VDict (items : list (value * value))
| VCode (c : code)
| VBuiltin (name : string)
| VFunction (ref : nat)
with code : Type :=
| CodeType (argcount nlocals stacksize flags : Z) (codestring : list byte)
           (constants : list value) (names varnames : list string)
           (filename name : string) (firstlineno : Z) (lnotab : list byte)
           (freevars cellvars : list string).

Definition co_argcount (c : code) : Z :=
  match c with CodeType a _ _ _ _ _ _ _ _ _ _ _ _ _ => a end.
Definition co_nlocals (c : code) : Z :=
  match c with CodeType _ a _ _ _ _ _ _ _ _ _ _ _ _ => a end.
Definition co_stacksize (c : code) : Z :=
  match c with CodeType _ _ a _ _ _ _ _ _ _ _ _ _ _ => a end.
Definition co_flags (c : code) : Z :=
  match c with CodeType _ _ _ a _ _ _ _ _ _ _ _ _ _ => a end.
Definition co_code (c : code) : list byte :=
  match c with CodeType _ _ _ _ a _ _ _ _ _ _ _ _ _ => a end.
Definition co_consts (c : code) : list value :=
  match c with CodeType _ _ _ _ _ a _ _ _ _ _ _ _ _ => a end.
Definition co_names (c : code) : list string :=
  match c with CodeType _ _ _ _ _ _ a _ _ _ _ _ _ _ => a end.
Definition co_varnames (c : code) : list string :=
  match c with CodeType _ _ _ _ _ _ _ a _ _ _ _ _ _ => a end.
Definition co_filename (c : code) : string :=
  match c with CodeType _ _ _ _ _ _ _ _ a _ _ _ _ _ => a end.
Definition co_name (c : code) : string :=
  match c with CodeType _ _ _ _ _ _ _ _ _ a _ _ _ _ => a end.
Definition co_firstlineno (c : code) : Z :=
  match c with CodeType _ _ _ _ _ _ _ _ _ _ a _ _ _ => a end.
Definition co_lnotab (c : code) : list byte :=
  match c with CodeType _ _ _ _ _ _ _ _ _ _ _ a _ _ => a end.
Definition co_freevars (c : code) : list string :=
  match c with CodeType _ _ _ _ _ _ _ _ _ _ _ _ a _ => a end.
Definition co_cellvars (c : code) : list string :=
  match c with CodeType _ _ _ _ _ _ _ _ _ _ _ _ _ a => a end.

Fixpoint value_eq_dec (x y : value) {struct x} : {x = y} + {x <> y}
with code_eq_dec (c d : code) {struct c} : {c = d} + {c <> d}.
Proof.
  - decide equality;
      try apply Z.eq_dec; try apply string_dec; try apply Nat.eq_dec;
      try (apply list_eq_dec; apply value_eq_dec).
    apply list_eq_dec. intros [a b] [a' b'].
    destruct (value_eq_dec a a'); [|right; congruence].
    destruct (value_eq_dec b b'); [left|right]; congruence.
  - decide equality;
      try apply Z.eq_dec; try apply string_dec;
      try (apply list_eq_dec; apply string_dec);
      try (apply list_eq_dec; apply Byte.byte_eq_dec);
      try (apply list_eq_dec; apply value_eq_dec).
Defined.

(** ** Exceptions and the primitives of Python sequences *)

Inductive exn : Type := IndexError | TypeError | ValueError | AttributeError.

Definition exn_eqb (a b : exn) : bool :=
  match a, b with
  | IndexError, IndexError | TypeError, TypeError
  | ValueError, ValueError | AttributeError, AttributeError => true
  | _, _ => false
  end.

Inductive result (A : Type) : Type :=
| Ok (a : A)
| Raise (e : exn).
Arguments Ok {A} a.
Arguments Raise {A} e.

Definition rbind {A B} (m : result A) (k : A -> result B) : result B :=
  match m with Ok a => k a | Raise e => Raise e end.

Declare Scope py_scope.
Delimit Scope py_scope with py.
Notation "x <- m ;; k" := (rbind m (fun x => k))
  (at level 61, m at next level, right associativity) : py_scope.
Open Scope py_scope.

(** [try: body except e: handler] *)
Definition try_except {A} (body : result A) (e : exn) (handler : result A)
  : result A :=
  match body with
  | Raise e' => if exn_eqb e e' then handler else Raise e'
  | Ok a => Ok a
  end.

Module Py.
Section Seq.
Context {A : Type}.

Definition len (l : list A) : Z := Z.of_nat (List.length l).

(** [l[i]]: a negative index counts from the end, out of range raises. *)
Definition getitem (l : list A) (i : Z) : result A :=
  let j := if i <? 0 then i + len l else i in
  if j <? 0 then Raise IndexError
  else match nth_error l (Z.to_nat j) with
       | Some x => Ok x
       | None => Raise IndexError
       end.

(** A slice bound is clamped to the sequence, never an error. *)
Definition clamp (l : list A) (i : Z) : Z :=
  if i <? 0 then Z.max (i + len l) 0 else Z.min i (len l).

(** [l[lo:hi]] *)
Definition slice (l : list A) (lo hi : Z) : list A :=
  let a := clamp l lo in
  let b := clamp l hi in
  firstn (Z.to_nat (b - a)) (skipn (Z.to_nat a) l).

(** [l[lo:]] *)
Definition slice_from (l : list A) (lo : Z) : list A :=
  skipn (Z.to_nat (clamp l lo)) l.

(** [l[::2]] and [l[1::2]] *)
Fixpoint evens (l : list A) : list A :=
  match l with
  | [] => []
  | [x] => [x]
  | x :: _ :: r => x :: evens r
  end.

Definition odds (l : list A) : list A := evens (tl l).

(** [l.append(x)] *)
Definition append (l : list A) (x : A) : list A := l ++ [x].

(** [l.pop()]: the last element and the list without it. *)
Definition pop (l : list A) : result (A * list A) :=
  match rev l with
  | [] => Raise IndexError
  | x :: r => Ok (x, rev r)
  end.

(** [s * n] for a sequence [s]: empty when [n <= 0]. *)
Definition mul (s : list A) (n : Z) : list A :=
  List.concat (repeat s (Z.to_nat n)).
End Seq.

(** [zip(a, b)] *)
Definition zip {A B} (a : list A) (b : list B) : list (A * B) := combine a b.

(** [ord(c)] for a one-character string. *)
Definition ord (b : byte) : Z := Z.of_N (Byte.to_N b).

(** [name.startswith(p)] and [sub in s] *)
Definition startswith (s p : string) : bool := String.prefix p s.

Definition contains (sub s : string) : bool :=
  match String.index 0 sub s with Some _ => true | None => false end.
End Py.

(** ** Builtins on values *)

(** [callable(v)]: builtin (C) callables and interpreted functions. *)
Definition callable (v : value) : bool :=
  match v with
  | VBuiltin _ | VFunction _ => true
  | _ => false
  end.

(** [hasattr(v, 'func_code')]: only interpreted functions carry a code block. *)
Definition has_func_code (v : value) : bool :=
  match v with
  | VFunction _ => true
  | _ => false
  end.

(** Lists and dictionaries cannot be dictionary keys. *)
Fixpoint hashable (v : value) : bool :=
  match v with
  | VList _ | VDict _ => false
  | VTuple items => forallb hashable items
  | _ => true
  end.

(** Iterating a value: the elements of a tuple or list, the characters of a
    string, the keys of a dictionary; anything else is not iterable. *)
Definition iter (v : value) : result (list value) :=
  match v with
  | VTuple items | VList items => Ok items
  | VStr s => Ok (map (fun ch => VStr (String ch EmptyString))
                      (list_ascii_of_string s))
  | VDict items => Ok (map fst items)
  | _ => Raise TypeError
  end.

(** ** Dictionaries

    A dictionary is its list of entries in insertion order with distinct
    keys. Python 2 leaves the iteration order unspecified; only [values]
    depends on it. *)
Definition dict : Type := list (value * value).

Definition key_eqb (k k' : value) : bool :=
  if value_eq_dec k k' then true else false.

Fixpoint dict_get (d : dict) (k : value) : option value :=
  match d with
  | [] => None
  | (k', v) :: r => if key_eqb k' k then Some v else dict_get r k
  end.

Fixpoint dict_set (d : dict) (k v : value) : dict :=
  match d with
  | [] => [(k, v)]
  | (k', v') :: r =>
      if key_eqb k' k then (k', v) :: r else (k', v') :: dict_set r k v
  end.

(** [d[k] = v] *)
Definition setitem (d : dict) (k v : value) : result dict :=
  if hashable k then Ok (dict_set d k v) else Raise TypeError.

(** Storing a sequence of pairs one after the other, as [dict(pairs)] and
    [d.update(pairs)] do. *)
Fixpoint store_pairs (d : dict) (pairs : list (value * value)) : result dict :=
  match pairs with
  | [] => Ok d
  | (k, v) :: r => d' <- setitem d k v ;; store_pairs d' r
  end.

(** [dict(pairs)] *)
Definition dict_of (pairs : list (value * value)) : result dict :=
  store_pairs [] pairs.

(** An element of an update sequence must itself be a sequence of length 2. *)
Definition as_pair (elem : value) : result (value * value) :=
  kv <- iter elem ;;
  match kv with
  | [k; v] => Ok (k, v)
  | _ => Raise ValueError
  end.

(** The elements of an update sequence are converted to pairs and stored
    one after the other. *)
Fixpoint store_elems (d : dict) (elems : list value) : result dict :=
  match elems with
  | [] => Ok d
  | e :: r =>
      p <- as_pair e ;;
      d' <- setitem d (fst p) (snd p) ;;
      store_elems d' r
  end.

(** [d.update(other)] on a copy: a dictionary is merged entry by entry, any
    other iterable is read as a sequence of pairs. *)
Definition update (d : dict) (other : value) : result dict :=
  match other with
  | VDict items => store_pairs d items
  | _ => elems <- iter other ;; store_elems d elems
  end.

(** [d.values()] *)
Definition values (d : dict) : list value := map snd d.

(** ** flatlist_to_dict *)

Definition flatlist_to_dict (alist : list value) : result dict :=
  dict_of (Py.zip (Py.evens alist) (Py.odds alist)).

(** ** Frames *)

(** The frame fields the tracer reads; [f_valuestack] is what the external
    [get_value_stack(frame)] returns, bottom first. *)
Record frame : Type := Frame {
  f_code : code;
  f_lasti : Z;
  f_valuestack : list value
}.

Definition get_value_stack (fr : frame) : list value := f_valuestack fr.

(** The call arguments decoded by [ValueStack.__init__]. *)
Record call_descriptor : Type := Descriptor {
  positional_args_count : Z;
  keyword_args_count : Z;
  args_count : Z;
  singlestar : bool;
  doublestar : bool
}.

(** A [ValueStack] instance; the descriptor attributes exist only when the
    [try] block of the constructor ran to its end. *)
Record ValueStack : Type := MkValueStack {
  stack : list value;
  descriptor : option call_descriptor;
  offset : Z;
  args_start : Z
}.

(** Reading a descriptor attribute of [self]. *)
Definition attr {A} (self : ValueStack) (f : call_descriptor -> A) : result A :=
  match descriptor self with
  | Some d => Ok (f d)
  | None => Raise AttributeError
  end.

Section Decoder.
(** [opcode.opname], the interpreter's table of instruction names. *)
Variable opname : byte -> string.

Definition unpack_CALL_FUNCTION (fr : frame)
  : result (option (string * Z * Z)) :=
  let code := Py.slice_from (co_code (f_code fr)) (f_lasti fr) in
  c0 <- Py.getitem code 0 ;;
  let name := opname c0 in
  if Py.startswith name "CALL_FUNCTION" then
    c1 <- Py.getitem code 1 ;;
    c2 <- Py.getitem code 2 ;;
    Ok (Some (name, Py.ord c1, Py.ord c2))
  else Ok None.

Definition current_bytecode (fr : frame) : result string :=
  code <- Py.getitem (co_code (f_code fr)) (f_lasti fr) ;;
  Ok (opname code).

(** [ValueStack.__init__]: unpacking the [None] that
    [unpack_CALL_FUNCTION] returns for another instruction is a
    [TypeError]; the handler catches [ValueError] only. *)
Definition ValueStack_init (fr : frame) : result ValueStack :=
  let stack := get_value_stack fr in
  d <- try_except
         (r <- unpack_CALL_FUNCTION fr ;;
          match r with
          | None => Raise TypeError
          | Some (bcode, pcount, kcount) =>
              Ok (Some {| positional_args_count := pcount;
                          keyword_args_count := kcount;
                          args_count := pcount + 2 * kcount;
                          singlestar := Py.contains "_VAR" bcode;
                          doublestar := Py.contains "_KW" bcode |})
          end)
         ValueError (Ok None) ;;
  s0 <- Py.getitem stack 0 ;;
  let offset := if callable s0 then 0 else 1 in
  Ok {| stack := stack; descriptor := d; offset := offset;
        args_start := offset + 1 |}.
End Decoder.

(** ** Methods of the view *)

Definition bottom (self : ValueStack) : result value :=
  Py.getitem (stack self) (offset self).

Definition positional_args_from_stack (self : ValueStack)
  : result (list value) :=
  let positional_start := args_start self in
  pcount <- attr self positional_args_count ;;
  Ok (Py.slice (stack self) positional_start (positional_start + pcount)).

Definition stack_above_args (self : ValueStack) (off : Z) : result value :=
  acount <- attr self args_count ;;
  let i := args_start self + acount + off in
  Py.getitem (stack self) i.

Definition positional_args_from_varargs (self : ValueStack) : result value :=
  stack_above_args self 0.

Definition positional_args (self : ValueStack) : result (list value) :=
  args <- positional_args_from_stack self ;;
  star <- attr self singlestar ;;
  if star then
    varargs <- positional_args_from_varargs self ;;
    more <- iter varargs ;;
    Ok (args ++ more)
  else Ok args.

Definition keyword_args_from_stack (self : ValueStack) : result dict :=
  pcount <- attr self positional_args_count ;;
  let keywords_start := args_start self + pcount in
  kcount <- attr self keyword_args_count ;;
  let args := Py.slice (stack self) keywords_start
                       (keywords_start + 2 * kcount) in
  flatlist_to_dict args.

Definition keyword_args_from_double_star (self : ValueStack) : result value :=
  star <- attr self singlestar ;;
  if star then stack_above_args self 1 else stack_above_args self 0.

Definition keyword_args (self : ValueStack) : result dict :=
  kwds <- keyword_args_from_stack self ;;
  star2 <- attr self doublestar ;;
  if star2 then
    other <- keyword_args_from_double_star self ;;
    update kwds other
  else Ok kwds.

Definition is_c_func (func : value) : bool := negb (has_func_code func).

(** ** Rewriting line-number tables *)

(** [re.match(r"\A(\x01\x01)+\Z", s)]: one or more repetitions of the pair. *)
Fixpoint marker_pairs (s : list byte) : bool :=
  match s with
  | [] => true
  | x01 :: x01 :: r => marker_pairs r
  | _ => false
  end.

Definition marker_match (s : list byte) : bool :=
  match s with
  | x01 :: x01 :: r => marker_pairs r
  | _ => false
  end.

Definition has_been_rewritten (c : code) : bool := marker_match (co_lnotab c).

(** A Python reference that may be [None]. *)
Definition value_of_ref (r : option code) : value :=
  match r with
  | Some c => VCode c
  | None => VNone
  end.

(** [rewrite_lnotab]: the bare [return] of the first branch yields [None]. *)
Fixpoint rewrite_lnotab (c : code) : option code :=
  if has_been_rewritten c then None
  else
    match c with
    | CodeType argcount nlocals stacksize flags codestring constants names
               varnames filename name _ _ freevars cellvars =>
        let n_bytes := Py.len codestring in
        let new_lnotab := Py.mul [x01; x01] (n_bytes - 1) in
        let new_consts :=
          map (fun const =>
                 match const with
                 | VCode nested => value_of_ref (rewrite_lnotab nested)
                 | _ => const
                 end) constants in
        Some (CodeType argcount nlocals stacksize flags codestring new_consts
                       names varnames filename name 0 new_lnotab
                       freevars cellvars)
    end.

(** ** The interpreter state the tracer acts on *)

(** [call_stack] is the tracer's list, last element on top: [None] marks an
    interpreted frame, [Some offset] a native call whose return value will
    sit at [offset]. [func_code] is the store of function objects: two
    occurrences of [VFunction r] are the same object. *)
Record world : Type := World {
  call_stack : list (option Z);
  func_code : nat -> code
}.

Definition M (A : Type) : Type := world -> result A * world.

Definition mret {A} (a : A) : M A := fun w => (Ok a, w).

Definition mbind {A B} (m : M A) (k : A -> M B) : M B :=
  fun w => match m w with
           | (Ok a, w') => k a w'
           | (Raise e, w') => (Raise e, w')
           end.

Definition lift {A} (r : result A) : M A := fun w => (r, w).

Declare Scope state_scope.
Delimit Scope state_scope with st.
Notation "x <-- m ;; k" := (mbind m (fun x => k))
  (at level 61, m at next level, right associativity) : state_scope.
Notation "m ;;; k" := (mbind m (fun _ => k))
  (at level 61, right associativity) : state_scope.
Open Scope state_scope.

Definition set_func_code (r : nat) (c : code) (w : world) : world :=
  {| call_stack := call_stack w;
     func_code := fun r' => if Nat.eqb r' r then c else func_code w r' |}.

(** [function.func_code = rewrite_lnotab(function.func_code)]: a function
    object accepts only a code object for [func_code] and raises
    [TypeError] otherwise, leaving the attribute as it was. *)
Definition rewrite_function (function : value) : M unit :=
  fun w =>
    match function with
    | VFunction r =>
        match rewrite_lnotab (func_code w r) with
        | Some c => (Ok tt, set_func_code r c w)
        | None => (Raise TypeError, w)
        end
    | _ => (Raise AttributeError, w)
    end.

Fixpoint rewrite_all (objects : list value) : M unit :=
  match objects with
  | [] => mret tt
  | obj :: rest =>
      (if has_func_code obj then rewrite_function obj else mret tt) ;;;
      rewrite_all rest
  end.

(** ** BytecodeTracer.trace *)

Definition push (x : option Z) : M unit :=
  fun w => (Ok tt, {| call_stack := Py.append (call_stack w) x;
                      func_code := func_code w |}).

Definition pop : M (option Z) :=
  fun w => match Py.pop (call_stack w) with
           | Ok (x, rest) => (Ok x, {| call_stack := rest;
                                       func_code := func_code w |})
           | Raise e => (Raise e, w)
           end.

(** [self.call_stack[-1]] *)
Definition top : M (option Z) :=
  fun w => (Py.getitem (call_stack w) (-1), w).

(** What [trace] returns: [None] or one of the three tagged tuples. *)
Inductive trace_event : Type :=
| NoEvent
| c_call (function : value) (pargs : list value) (kargs : dict)
| c_return (return_value : value)
| print_stmt.

Definition is_not_None (x : option Z) : bool :=
  match x with Some _ => true | None => false end.

Section Tracer.
Variable opname : byte -> string.

Definition trace (fr : frame) (event : string) : M trace_event :=
  if String.eqb event "line" then
    bcode <-- lift (current_bytecode opname fr) ;;
    if Py.startswith bcode "CALL_FUNCTION" then
      value_stack <-- lift (ValueStack_init opname fr) ;;
      function <-- lift (bottom value_stack) ;;
      if negb (is_c_func function) then
        rewrite_function function ;;;
        mret NoEvent
      else
        push (Some (offset value_stack)) ;;;
        pargs <-- lift (positional_args value_stack) ;;
        kargs <-- lift (keyword_args value_stack) ;;
        rewrite_all (pargs ++ values kargs) ;;;
        mret (c_call function pargs kargs)
    else
      t <-- top ;;
      if is_not_None t then
        off <-- pop ;;
        match off with
        | Some i =>
            v <-- lift (Py.getitem (get_value_stack fr) i) ;;
            mret (c_return v)
        | None => lift (Raise TypeError)
        end
      else if Py.startswith bcode "PRINT_" then mret print_stmt
      else mret NoEvent
  else if String.eqb event "call" then
    push None ;;; mret NoEvent
  else if String.eqb event "exception" then
    t <-- top ;;
    if is_not_None t then pop ;;; mret NoEvent
    else if String.eqb event "return" then pop ;;; mret NoEvent
    else mret NoEvent
  else if String.eqb event "return" then
    pop ;;; mret NoEvent
  else mret NoEvent.
End Tracer.

(** ** Vocabulary of the properties *)

(** The operand-stack slots of explicit keyword arguments: name, value,
    name, value, ... *)
Definition flat (pairs : list (value * value)) : list value :=
  flat_map (fun kv => [fst kv; snd kv]) pairs.

(** The value bound to [k] by the last pair of a sequence that names it. *)
Fixpoint last_binding (pairs : list (value * value)) (k : value)
  : option value :=
  match pairs with
  | [] => None
  | (k', v) :: r =>
      match last_binding r k with
      | Some v' => Some v'
      | None => if key_eqb k' k then Some v else None
      end
  end.

Definition hashable_keys (pairs : list (value * value)) : bool :=
  forallb hashable (map fst pairs).

(** A dictionary object: distinct, hashable keys. *)
Definition wf_dict (m : dict) : Prop :=
  NoDup (map fst m) /\ hashable_keys m = true.

(** A code block that [rewrite_lnotab] has not produced: neither it nor a
    code block of its constant pool carries the marker, and each has at
    least two instruction bytes. *)
Fixpoint fresh (c : code) : bool :=
  match c with
  | CodeType _ _ _ _ codestring constants _ _ _ _ _ lnotab _ _ =>
      negb (marker_match lnotab) && (2 <=? Py.len codestring)
      && forallb (fun v => match v with VCode n => fresh n | _ => true end)
                 constants
  end.

(** The marker holds on a code block and on the code blocks of its pool. *)
Fixpoint instrumented (c : code) : bool :=
  match c with
  | CodeType _ _ _ _ _ constants _ _ _ _ _ lnotab _ _ =>
      marker_match lnotab
      && forallb (fun v => match v with VCode n => instrumented n | _ => true end)
                 constants
  end.

(** The fields [rewrite_lnotab] passes on as they are. *)
Definition same_body (c c' : code) : Prop :=
  co_argcount c' = co_argcount c /\ co_nlocals c' = co_nlocals c /\
  co_stacksize c' = co_stacksize c /\ co_flags c' = co_flags c /\
  co_code c' = co_code c /\ co_names c' = co_names c /\
  co_varnames c' = co_varnames c /\ co_filename c' = co_filename c /\
  co_name c' = co_name c /\ co_freevars c' = co_freevars c /\
  co_cellvars c' = co_cellvars c.

(** The instruction pointer of [fr] is at the opcode [op], which is
    followed by the operand bytes [lo] and [hi]. *)
Definition at_instruction (fr : frame) (op lo hi : byte) : Prop :=
  exists pre post,
    co_code (f_code fr) = pre ++ op :: lo :: hi :: post /\
    f_lasti fr = Py.len pre.

(** The function objects among some values, by reference, in order. *)
Definition refs_of (objects : list value) : list nat :=
  flat_map (fun v => match v with VFunction r => [r] | _ => [] end) objects.

(** *** Runs of the tracer over a notification stream *)

Definition with_stack (cs : list (option Z)) (w : world) : world :=
  {| call_stack := cs; func_code := func_code w |}.

Definition depth (w : world) : Z := Py.len (call_stack w).

Definition notification : Type := (frame * string)%type.

Record step : Type := Step {
  fired : notification;
  before : world;
  outcome : result trace_event;
  after : world
}.

Section Runs.
Variable opname : byte -> string.

(** The tracer is called once per notification until a call raises. *)
Fixpoint run (ns : list notification) (w : world) : list step :=
  match ns with
  | [] => []
  | n :: rest =>
      let r := trace opname (fst n) (snd n) w in
      {| fired := n; before := w; outcome := fst r; after := snd r |}
        :: match fst r with
           | Ok _ => run rest (snd r)
           | Raise _ => []
           end
  end.
End Runs.

(** Frame-entry and frame-exit notifications for some frames. *)
Definition entries (frs : list frame) : list notification :=
  map (fun fr => (fr, "call"%string)) frs.

Definition exits (frs : list frame) : list notification :=
  map (fun fr => (fr, "return"%string)) frs.

Definition final (w : world) (h : list step) : world :=
  last (map after h) w.

Definition succeeded (h : list step) : bool :=
  forallb (fun s => match outcome s with Ok _ => true | Raise _ => false end) h.

Definition emits_native_return (s : step) : bool :=
  match outcome s with Ok (c_return _) => true | _ => false end.

(** *** The nesting that a notification stream describes

    What is open at a point of the stream is read off the notifications
    alone, innermost last: a frame from its frame-entry to its frame-exit,
    a native call from the per-instruction notification at its call
    instruction to the first per-instruction or exception notification
    that finds it innermost (control is back in the calling frame: the
    call returned, or it raised). *)
Inductive boundary : Type := InFrame | InNative.

Definition is_native (k : boundary) : bool :=
  match k with InNative => true | InFrame => false end.

Definition is_frame (k : boundary) : bool := negb (is_native k).

(** The innermost boundary is a native call. *)
Definition native_innermost (b : list boundary) : bool :=
  match Py.getitem b (-1) with
  | Ok InNative => true
  | _ => false
  end.

(** The nesting once a native call that was innermost is over. *)
Definition native_over (b : list boundary) : list boundary :=
  match Py.pop b with
  | Ok (InNative, rest) => rest
  | _ => b
  end.

Section Stream.
Variable opname : byte -> string.

Definition at_call_instruction (fr : frame) : bool :=
  match current_bytecode opname fr with
  | Ok bcode => Py.startswith bcode "CALL_FUNCTION"
  | Raise _ => false
  end.

(** The frame is about to call a native function: it is at a call
    instruction and the callee that the view finds has no code block. *)
Definition native_call_site (fr : frame) : bool :=
  at_call_instruction fr
  && match (view <- ValueStack_init opname fr ;; bottom view) with
     | Ok callee => is_c_func callee
     | Raise _ => false
     end.

(** One notification. A frame-exit closes the innermost boundary, which
    has to be a frame: the stream is not one of a host otherwise. *)
Definition nest (b : list boundary) (n : notification)
  : option (list boundary) :=
  if String.eqb (snd n) "call" then Some (Py.append b InFrame)
  else if String.eqb (snd n) "return" then
    match Py.pop b with
    | Ok (InFrame, rest) => Some rest
    | _ => None
    end
  else if String.eqb (snd n) "exception" then Some (native_over b)
  else if String.eqb (snd n) "line" then
    Some (if native_call_site (fst n)
          then Py.append (native_over b) InNative
          else native_over b)
  else Some b.

Fixpoint nesting (b : list boundary) (ns : list notification)
  : option (list boundary) :=
  match ns with
  | [] => Some b
  | n :: rest =>
      match nest b n with
      | Some b' => nesting b' rest
      | None => None
      end
  end.

(** No per-instruction notification arrives at a call instruction while a
    native call is innermost (as it does at the second of two call
    instructions in a row). *)
Definition call_after_native (b : list boundary) (n : notification) : bool :=
  String.eqb (snd n) "line" && at_call_instruction (fst n)
  && native_innermost b.

Fixpoint calls_apart (b : list boundary) (ns : list notification) : bool :=
  match ns with
  | [] => true
  | n :: rest =>
      negb (call_after_native b n)
      && match nest b n with
         | Some b' => calls_apart b' rest
         | None => true
         end
  end.
End Stream.

Definition occurrences (ev : string) (ns : list notification) : Z :=
  Z.of_nat (List.length (filter (fun n => String.eqb (snd n) ev) ns)).

(** Frame-entry notifications minus frame-exit notifications. *)
Definition frames_entered_not_exited (ns : list notification) : Z :=
  occurrences "call" ns - occurrences "return" ns.

Definition native_calls_in_progress (b : list boundary) : Z :=
  Z.of_nat (List.length (filter is_native b)).

Definition frames_in (b : list boundary) : Z :=
  Z.of_nat (List.length (filter is_frame b)).

(** The pending-call stack has an offset where the nesting has a native
    call and the frame marker where it has a frame. *)
Definition mirrors (cs : list (option Z)) (b : list boundary) : Prop :=
  map is_not_None cs = map is_native b.

(** A frame-exit notification that reaches [call_stack.pop()] with nothing
    on the stack. *)
Definition popped_when_empty (s : step) : Prop :=
  snd (fired s) = "return"%string /\ call_stack (before s) = [].

(** ** Concrete objects for the examples *)

(** The table [opcode.opname] of Python 2.7; an opcode without a name
    reads ["<n>"]. *)
Definition opname27 (b : byte) : string :=
  match Byte.to_N b with
  | 0%N => "STOP_CODE"
  | 1%N => "POP_TOP"
  | 2%N => "ROT_TWO"
  | 3%N => "ROT_THREE"
  | 4%N => "DUP_TOP"
  | 5%N => "ROT_FOUR"
  | 9%N => "NOP"
  | 10%N => "UNARY_POSITIVE"
  | 11%N => "UNARY_NEGATIVE"
  | 12%N => "UNARY_NOT"
  | 13%N => "UNARY_CONVERT"
  | 15%N => "UNARY_INVERT"
  | 19%N => "BINARY_POWER"
  | 20%N => "BINARY_MULTIPLY"
  | 21%N => "BINARY_DIVIDE"
  | 22%N => "BINARY_MODULO"
  | 23%N => "BINARY_ADD"
  | 24%N => "BINARY_SUBTRACT"
  | 25%N => "BINARY_SUBSCR"
  | 26%N => "BINARY_FLOOR_DIVIDE"
  | 27%N => "BINARY_TRUE_DIVIDE"
  | 28%N => "INPLACE_FLOOR_DIVIDE"
  | 29%N => "INPLACE_TRUE_DIVIDE"
  | 30%N => "SLICE+0"
  | 31%N => "SLICE+1"
  | 32%N => "SLICE+2"
  | 33%N => "SLICE+3"
  | 40%N => "STORE_SLICE+0"
  | 41%N => "STORE_SLICE+1"
  | 42%N => "STORE_SLICE+2"
  | 43%N => "STORE_SLICE+3"
  | 50%N => "DELETE_SLICE+0"
  | 51%N => "DELETE_SLICE+1"
  | 52%N => "DELETE_SLICE+2"
  | 53%N => "DELETE_SLICE+3"
  | 54%N => "STORE_MAP"
  | 55%N => "INPLACE_ADD"
  | 56%N => "INPLACE_SUBTRACT"
  | 57%N => "INPLACE_MULTIPLY"
  | 58%N => "INPLACE_DIVIDE"
  | 59%N => "INPLACE_MODULO"
  | 60%N => "STORE_SUBSCR"
  | 61%N => "DELETE_SUBSCR"
  | 62%N => "BINARY_LSHIFT"
  | 63%N => "BINARY_RSHIFT"
  | 64%N => "BINARY_AND"
  | 65%N => "BINARY_XOR"
  | 66%N => "BINARY_OR"
  | 67%N => "INPLACE_POWER"
  | 68%N => "GET_ITER"
  | 70%N => "PRINT_EXPR"
  | 71%N => "PRINT_ITEM"
  | 72%N => "PRINT_NEWLINE"
  | 73%N => "PRINT_ITEM_TO"
  | 74%N => "PRINT_NEWLINE_TO"
  | 75%N => "INPLACE_LSHIFT"
  | 76%N => "INPLACE_RSHIFT"
  | 77%N => "INPLACE_AND"
  | 78%N => "INPLACE_XOR"
  | 79%N => "INPLACE_OR"
  | 80%N => "BREAK_LOOP"
  | 81%N => "WITH_CLEANUP"
  | 82%N => "LOAD_LOCALS"
  | 83%N => "RETURN_VALUE"
  | 84%N => "IMPORT_STAR"
  | 85%N => "EXEC_STMT"
  | 86%N => "YIELD_VALUE"
  | 87%N => "POP_BLOCK"
  | 88%N => "END_FINALLY"
  | 89%N => "BUILD_CLASS"
  | 90%N => "STORE_NAME"
  | 91%N => "DELETE_NAME"
  | 92%N => "UNPACK_SEQUENCE"
  | 93%N => "FOR_ITER"
  | 94%N => "LIST_APPEND"
  | 95%N => "STORE_ATTR"
  | 96%N => "DELETE_ATTR"
  | 97%N => "STORE_GLOBAL"
  | 98%N => "DELETE_GLOBAL"
  | 99%N => "DUP_TOPX"
  | 100%N => "LOAD_CONST"
  | 101%N => "LOAD_NAME"
  | 102%N => "BUILD_TUPLE"
  | 103%N => "BUILD_LIST"
  | 104%N => "BUILD_SET"
  | 105%N => "BUILD_MAP"
  | 106%N => "LOAD_ATTR"
  | 107%N => "COMPARE_OP"
  | 108%N => "IMPORT_NAME"
  | 109%N => "IMPORT_FROM"
  | 110%N => "JUMP_FORWARD"
  | 111%N => "JUMP_IF_FALSE_OR_POP"
  | 112%N => "JUMP_IF_TRUE_OR_POP"
  | 113%N => "JUMP_ABSOLUTE"
  | 114%N => "POP_JUMP_IF_FALSE"
  | 115%N => "POP_JUMP_IF_TRUE"
  | 116%N => "LOAD_GLOBAL"
  | 119%N => "CONTINUE_LOOP"
  | 120%N => "SETUP_LOOP"
  | 121%N => "SETUP_EXCEPT"
  | 122%N => "SETUP_FINALLY"
  | 124%N => "LOAD_FAST"
  | 125%N => "STORE_FAST"
  | 126%N => "DELETE_FAST"
  | 130%N => "RAISE_VARARGS"
  | 131%N => "CALL_FUNCTION"
  | 132%N => "MAKE_FUNCTION"
  | 133%N => "BUILD_SLICE"
  | 134%N => "MAKE_CLOSURE"
  | 135%N => "LOAD_CLOSURE"
  | 136%N => "LOAD_DEREF"
  | 137%N => "STORE_DEREF"
  | 140%N => "CALL_FUNCTION_VAR"
  | 141%N => "CALL_FUNCTION_KW"
  | 142%N => "CALL_FUNCTION_VAR_KW"
  | 143%N => "SETUP_WITH"
  | 145%N => "EXTENDED_ARG"
  | 146%N => "SET_ADD"
  | 147%N => "MAP_ADD"
  | n => "<" ++ NilZero.string_of_uint (N.to_uint n) ++ ">"
  end.

(** [def g(): pass], compiled: LOAD_CONST 0; RETURN_VALUE. *)
Definition code_g : code :=
  CodeType 0 0 1 67 [x64; x00; x00; x53] [VNone] [] [] "m.py" "g" 1
           [x00; x01] [] [].

(** A caller whose body is
    LOAD_NAME 0; CALL_FUNCTION 0; PRINT_ITEM; PRINT_NEWLINE;
    LOAD_NAME 1; CALL_FUNCTION_VAR 0x0102; POP_TOP; LOAD_CONST 0; RETURN_VALUE *)
Definition code_main : code :=
  CodeType 0 0 6 64
           [x65; x00; x00; x83; x00; x00; x47; x48;
            x65; x01; x00; x8c; x02; x01; x01; x64; x00; x00; x53]
           [VNone] ["g"%string; "f"%string] [] "m.py" "<module>" 1 [x08; x01] [] [].

(** Every function object of the store starts out with [code_g]. *)
Definition world0 : world := {| call_stack := []; func_code := fun _ => code_g |}.

Definition frame_at (lasti : Z) (vs : list value) : frame :=
  {| f_code := code_main; f_lasti := lasti; f_valuestack := vs |}.

(** [f(1, x=2, *(3,), **{"x": 9, "y": 4})] at its CALL_FUNCTION_VAR_KW:
    the variadic mapping sits one slot above the tuple. *)
Definition frame_star2 : frame :=
  {| f_code := CodeType 0 0 6 64 [x8e; x01; x01] [] [] [] "m.py" "<module>"
                        1 [] [] [];
     f_lasti := 0;
     f_valuestack :=
       [VBuiltin "f"; VInt 1; VStr "x"; VInt 2; VTuple [VInt 3];
        VDict [(VStr "x", VInt 9); (VStr "y", VInt 4)]] |}.

Definition view_star2 : ValueStack :=
  {| stack := f_valuestack frame_star2;
     descriptor := Some {| positional_args_count := 1;
                           keyword_args_count := 1;
                           args_count := 3;
                           singlestar := true;
                           doublestar := true |};
     offset := 0;
     args_start := 1 |}.

(** Frame entry, [f(1, 2, k=5, *(3, 4))] with a native [f] that raises,
    frame exit. *)
Definition script_raising_native : list notification :=
  [ (frame_at 0 [], "call"%string);
    (frame_at 11 [VBuiltin "f"; VInt 1; VInt 2; VStr "k"; VInt 5;
                  VTuple [VInt 3; VInt 4]], "line"%string);
    (frame_at 11 [VBuiltin "f"; VInt 1; VInt 2; VStr "k"; VInt 5;
                  VTuple [VInt 3; VInt 4]], "exception"%string);
    (frame_at 11 [], "return"%string) ].

(** [len(repr(x))]: LOAD_NAME 0; LOAD_NAME 1; LOAD_NAME 2; CALL_FUNCTION 1;
    CALL_FUNCTION 1; RETURN_VALUE. *)
Definition code_nested_calls : code :=
  CodeType 0 0 3 64
           [x65; x00; x00; x65; x01; x00; x65; x02; x00;
            x83; x01; x00; x83; x01; x00; x53]
           [] ["len"%string; "repr"%string; "x"%string] [] "m.py" "<module>"
           1 [] [] [].

Definition script_nested_calls : list notification :=
  [ ({| f_code := code_nested_calls; f_lasti := 0; f_valuestack := [] |},
     "call"%string);
    ({| f_code := code_nested_calls; f_lasti := 9;
        f_valuestack := [VBuiltin "len"; VBuiltin "repr"; VInt 7] |},
     "line"%string);
    ({| f_code := code_nested_calls; f_lasti := 12;
        f_valuestack := [VBuiltin "len"; VStr "7"] |}, "line"%string);
    ({| f_code := code_nested_calls; f_lasti := 15;
        f_valuestack := [VInt 1] |}, "line"%string);
    ({| f_code := code_nested_calls; f_lasti := 15;
        f_valuestack := [VInt 1] |}, "return"%string) ].

(** The descriptor of CALL_FUNCTION_VAR with the operand bytes 2 and 1. *)
Definition descriptor_var : call_descriptor :=
  {| positional_args_count := 2; keyword_args_count := 1; args_count := 4;
     singlestar := true; doublestar := false |}.

(** The view over [f(1, 2, k=5, *(3, 4))] and the one over a stack that
    stops after the first argument. *)
Definition view_var : ValueStack :=
  {| stack := [VBuiltin "f"; VInt 1; VInt 2; VStr "k"; VInt 5;
               VTuple [VInt 3; VInt 4]];
     descriptor := Some descriptor_var; offset := 0; args_start := 1 |}.

Definition view_short : ValueStack :=
  {| stack := [VBuiltin "f"; VInt 1];
     descriptor := Some descriptor_var; offset := 0; args_start := 1 |}.

(** [f(1, x=2)] at its CALL_FUNCTION with the operand bytes 1 and 1. *)
Definition frame_plain : frame :=
  {| f_code := CodeType 0 0 4 64 [x83; x01; x01] [] [] [] "m.py" "<module>"
                        1 [] [] [];
     f_lasti := 0;
     f_valuestack := [VBuiltin "f"; VInt 1; VStr "x"; VInt 2] |}.

(** A code block never rewritten that holds [code_g] in its pool. *)
Definition code_nesting : code :=
  CodeType 0 0 1 67 [x64; x00; x00; x53; x64; x01; x00; x53]
           [VCode code_g; VNone] [] [] "m.py" "nesting" 1 [x00; x01] [] [].

(** A code block that was rewritten before, inside one that was not. *)
Definition code_inner_done : code :=
  CodeType 0 0 1 67 [x64; x00; x00; x53] [VNone] [] [] "m.py" "inner" 0
           [x01; x01; x01; x01; x01; x01] [] [].

Definition code_outer : code :=
  CodeType 0 0 1 67 [x64; x00; x00; x53] [VCode code_inner_done; VNone]
           [] [] "m.py" "outer" 1 [x00; x01] [] [].

(** * Properties *)

(** ** Sequences *)

Module PyFacts.
Section Seq.
Context {A : Type}.
Implicit Types (l a b c : list A) (x : A) (i : Z).

Lemma len_nonneg l : 0 <= Py.len l.
Proof. unfold Py.len. lia. Qed.

Lemma len_app a b : Py.len (a ++ b) = Py.len a + Py.len b.
Proof. unfold Py.len. rewrite length_app. lia. Qed.

Lemma len_append l x : Py.len (Py.append l x) = Py.len l + 1.
Proof. unfold Py.append. rewrite len_app. reflexivity. Qed.

Lemma getitem_nonneg l i :
  0 <= i ->
  Py.getitem l i = match nth_error l (Z.to_nat i) with
                   | Some x => Ok x
                   | None => Raise IndexError
                   end.
Proof.
  intros Hi. unfold Py.getitem.
  destruct (Z.ltb_spec i 0); [lia|].
  destruct (Z.ltb_spec i 0); [lia|]. reflexivity.
Qed.

Lemma getitem_nil i : Py.getitem (@nil A) i = Raise IndexError.
Proof.
  unfold Py.getitem. cbn [Py.len List.length Z.of_nat].
  rewrite Z.add_0_r.
  destruct (Z.ltb_spec i 0) as [H|H].
  - destruct (Z.ltb_spec i 0); [reflexivity|lia].
  - destruct (Z.ltb_spec i 0); [lia|].
    destruct (Z.to_nat i); reflexivity.
Qed.

Lemma getitem_top l x : Py.getitem (l ++ [x]) (-1) = Ok x.
Proof.
  unfold Py.getitem. change (-1 <? 0) with true. cbv iota.
  assert (E : -1 + Py.len (l ++ [x]) = Py.len l)
    by (rewrite len_app; change (Py.len [x]) with 1; lia).
  rewrite E. pose proof (len_nonneg l) as Hl.
  destruct (Z.ltb_spec (Py.len l) 0); [lia|].
  unfold Py.len. rewrite Nat2Z.id, nth_error_app2, Nat.sub_diag by lia.
  reflexivity.
Qed.

Lemma getitem_app_r a c i :
  0 <= i -> Py.getitem (a ++ c) (Py.len a + i) = Py.getitem c i.
Proof.
  intros Hi. pose proof (len_nonneg a) as Ha.
  rewrite !getitem_nonneg by lia. unfold Py.len in *.
  rewrite nth_error_app2 by lia.
  replace (Z.to_nat (Z.of_nat (List.length a) + i) - List.length a)%nat
    with (Z.to_nat i) by lia.
  reflexivity.
Qed.

Lemma getitem_head x l : Py.getitem (x :: l) 0 = Ok x.
Proof. reflexivity. Qed.

Lemma pop_nil : Py.pop (@nil A) = Raise IndexError.
Proof. reflexivity. Qed.

Lemma pop_append l x : Py.pop (Py.append l x) = Ok (x, l).
Proof.
  unfold Py.pop, Py.append. rewrite rev_unit, rev_involutive. reflexivity.
Qed.

Lemma snoc_cases l : l = [] \/ exists l' x, l = l' ++ [x].
Proof.
  destruct (rev l) as [|x r] eqn:E.
  - left. apply (f_equal (@rev A)) in E. rewrite rev_involutive in E.
    exact E.
  - right. exists (rev r), x.
    apply (f_equal (@rev A)) in E. rewrite rev_involutive in E.
    exact E.
Qed.

Lemma clamp_in_range l i : 0 <= i <= Py.len l -> Py.clamp l i = i.
Proof.
  intros H. unfold Py.clamp.
  destruct (Z.ltb_spec i 0); lia.
Qed.

(** The slice that starts after [a] and spans [b] is [b]. *)
Lemma slice_app_mid a b c :
  Py.slice (a ++ b ++ c) (Py.len a) (Py.len a + Py.len b) = b.
Proof.
  pose proof (len_nonneg a). pose proof (len_nonneg b).
  pose proof (len_nonneg c).
  unfold Py.slice.
  rewrite !clamp_in_range by (rewrite !len_app; lia).
  unfold Py.len in *.
  replace (Z.to_nat (Z.of_nat (List.length a) + Z.of_nat (List.length b)
                     - Z.of_nat (List.length a)))
    with (List.length b + 0)%nat by lia.
  rewrite Nat2Z.id.
  rewrite skipn_app, skipn_all, Nat.sub_diag. cbn [skipn app].
  rewrite firstn_app_2. cbn [firstn]. apply app_nil_r.
Qed.

(** Indexing finds what the slice from the same index starts with. *)
Lemma getitem_slice_from l i x :
  Py.getitem l i = Ok x -> Py.getitem (Py.slice_from l i) 0 = Ok x.
Proof.
  unfold Py.getitem at 1. unfold Py.slice_from, Py.clamp.
  pose proof (len_nonneg l) as Hl.
  destruct (Z.ltb_spec i 0) as [Hi|Hi].
  - destruct (Z.ltb_spec (i + Py.len l) 0); [discriminate|].
    rewrite Z.max_l by lia.
    destruct (nth_error l (Z.to_nat (i + Py.len l))) eqn:E; [|discriminate].
    intros [= ->]. rewrite getitem_nonneg by lia.
    rewrite nth_error_skipn, Nat.add_0_r. cbn. rewrite E. reflexivity.
  - destruct (Z.ltb_spec i 0); [lia|].
    destruct (nth_error l (Z.to_nat i)) eqn:E; [|discriminate].
    intros [= ->].
    assert (Z.to_nat i < List.length l)%nat
      by (apply nth_error_Some; congruence).
    rewrite Z.min_l by (unfold Py.len; lia).
    rewrite getitem_nonneg by lia.
    rewrite nth_error_skipn, Nat.add_0_r. cbn. rewrite E. reflexivity.
Qed.
End Seq.

Lemma ord_nonneg b : 0 <= Py.ord b.
Proof. unfold Py.ord. lia. Qed.

(** A name of the print family is not a name of the call family. *)
Lemma print_is_not_call (name : string) :
  Py.startswith name "PRINT_" = true ->
  Py.startswith name "CALL_FUNCTION" = false.
Proof.
  unfold Py.startswith. destruct name as [|ch rest]; [discriminate|].
  change (String.prefix "PRINT_" (String ch rest))
    with (if ascii_dec "P" ch then String.prefix "RINT_" rest else false).
  change (String.prefix "CALL_FUNCTION" (String ch rest))
    with (if ascii_dec "C" ch then String.prefix "ALL_FUNCTION" rest
          else false).
  destruct (ascii_dec "P" ch) as [<-|]; [|discriminate].
  intros _. destruct (ascii_dec "C" "P"); [discriminate|reflexivity].
Qed.
End PyFacts.

(** ** Dictionaries *)

Lemma key_eqb_eq k k' : key_eqb k k' = true <-> k = k'.
Proof.
  unfold key_eqb. destruct (value_eq_dec k k'); split; congruence.
Qed.

Lemma key_eqb_refl k : key_eqb k k = true.
Proof. apply key_eqb_eq. reflexivity. Qed.

Lemma dict_get_set d k v k' :
  dict_get (dict_set d k v) k' =
  if key_eqb k k' then Some v else dict_get d k'.
Proof.
  induction d as [|[k0 v0] r IH]; cbn.
  - reflexivity.
  - destruct (key_eqb k0 k) eqn:E0; cbn.
    + apply key_eqb_eq in E0. subst k0.
      destruct (key_eqb k k'); reflexivity.
    + rewrite IH. destruct (key_eqb k0 k') eqn:E1; [|reflexivity].
      apply key_eqb_eq in E1. subst k0.
      destruct (key_eqb k k') eqn:E2; [|reflexivity].
      apply key_eqb_eq in E2. subst k'. rewrite key_eqb_refl in E0.
      discriminate.
Qed.

Lemma store_pairs_lookup pairs : forall d,
  hashable_keys pairs = true ->
  exists d', store_pairs d pairs = Ok d' /\
    forall k, dict_get d' k =
              match last_binding pairs k with
              | Some v => Some v
              | None => dict_get d k
              end.
Proof.
  unfold hashable_keys.
  induction pairs as [|[k0 v0] r IH]; intros d Hh; cbn in *.
  - exists d. split; [reflexivity|]. reflexivity.
  - apply andb_true_iff in Hh as [Hk Hr].
    unfold setitem. rewrite Hk. cbn.
    destruct (IH (dict_set d k0 v0) Hr) as [d' [Hd' Hget]].
    exists d'. split; [exact Hd'|]. intros k. rewrite Hget.
    destruct (last_binding r k); [reflexivity|]. rewrite dict_get_set.
    destruct (key_eqb k0 k); reflexivity.
Qed.

Lemma last_binding_in pairs k v :
  last_binding pairs k = Some v -> In k (map fst pairs).
Proof.
  revert v. induction pairs as [|[k0 v0] r IH]; intros v; cbn; [discriminate|].
  destruct (last_binding r k) as [v1|].
  - intros _. right. apply (IH v1). reflexivity.
  - destruct (key_eqb k0 k) eqn:E; [|discriminate].
    intros _. left. apply key_eqb_eq. exact E.
Qed.

(** In a dictionary the last binding of a key is its only one. *)
Lemma last_binding_dict m k :
  NoDup (map fst m) -> last_binding m k = dict_get m k.
Proof.
  induction m as [|[k0 v0] r IH]; cbn; [reflexivity|].
  intros Hnd. inversion Hnd as [|? ? Hnotin Hnd']; subst.
  rewrite (IH Hnd').
  destruct (dict_get r k) eqn:E.
  - destruct (key_eqb k0 k) eqn:Ek; [|reflexivity].
    apply key_eqb_eq in Ek. subst k0. exfalso. apply Hnotin.
    apply (last_binding_in r k v). exact (IH Hnd').
  - reflexivity.
Qed.

Lemma evens_flat pairs : Py.evens (flat pairs) = map fst pairs.
Proof.
  induction pairs as [|[k v] r IH]; cbn; [reflexivity|].
  f_equal. exact IH.
Qed.

Lemma evens_cons_flat pairs : forall v,
  Py.evens (v :: flat pairs) = v :: map snd pairs.
Proof.
  induction pairs as [|[k0 v0] r IH]; intros v; cbn; [reflexivity|].
  f_equal. apply IH.
Qed.

Lemma zip_fst_snd {A B} (l : list (A * B)) :
  Py.zip (map fst l) (map snd l) = l.
Proof.
  unfold Py.zip. induction l as [|[a b] r IH]; cbn; [reflexivity|].
  f_equal. exact IH.
Qed.

Lemma zip_flat pairs :
  Py.zip (Py.evens (flat pairs)) (Py.odds (flat pairs)) = pairs.
Proof.
  unfold Py.odds. rewrite evens_flat.
  destruct pairs as [|[k v] r]; [reflexivity|].
  cbn [flat flat_map fst snd app tl]. rewrite evens_cons_flat.
  apply (zip_fst_snd ((k, v) :: r)).
Qed.

Lemma length_flat pairs :
  List.length (flat pairs) = (2 * List.length pairs)%nat.
Proof.
  induction pairs as [|[k v] r IH]; [reflexivity|].
  change (flat ((k, v) :: r)) with (k :: v :: flat r).
  cbn [List.length]. rewrite IH. lia.
Qed.

Lemma len_flat pairs : Py.len (flat pairs) = 2 * Py.len pairs.
Proof. unfold Py.len. rewrite length_flat. lia. Qed.

Lemma flatlist_to_dict_flat pairs :
  hashable_keys pairs = true ->
  exists kw, flatlist_to_dict (flat pairs) = Ok kw /\
    forall k, dict_get kw k = last_binding pairs k.
Proof.
  intros Hh. unfold flatlist_to_dict, dict_of. rewrite zip_flat.
  destruct (store_pairs_lookup pairs [] Hh) as [kw [Hkw Hget]].
  exists kw. split; [exact Hkw|]. intros k. rewrite Hget.
  destruct (last_binding pairs k); reflexivity.
Qed.

(** ** The operand-stack view *)

(** For bounds that are not negative a slice is [skipn] then [firstn]. *)
Lemma slice_nonneg {A} (l : list A) (lo n : Z) :
  0 <= lo -> 0 <= n ->
  Py.slice l lo (lo + n) = firstn (Z.to_nat n) (skipn (Z.to_nat lo) l).
Proof.
  intros Hlo Hn. unfold Py.slice, Py.clamp.
  destruct (Z.ltb_spec lo 0); [lia|].
  destruct (Z.ltb_spec (lo + n) 0); [lia|].
  pose proof (PyFacts.len_nonneg l) as Hl. unfold Py.len in *.
  destruct (Z.le_gt_cases lo (Z.of_nat (List.length l))) as [Hin|Hout].
  - rewrite (Z.min_l lo) by lia.
    destruct (Z.le_gt_cases (lo + n) (Z.of_nat (List.length l))).
    + rewrite Z.min_l by lia. f_equal. lia.
    + rewrite Z.min_r by lia.
      rewrite !firstn_all2; [reflexivity| |]; rewrite length_skipn; lia.
  - rewrite !Z.min_r by lia. rewrite Z.sub_diag. cbn [Z.to_nat firstn].
    rewrite (skipn_all2 l) by lia. now rewrite firstn_nil.
Qed.

Section ViewFacts.
Variable opname : byte -> string.

(** What [unpack_CALL_FUNCTION] returns at a call instruction: a name of
    the call family and two counts read with [ord]. *)
Lemma unpack_Some fr name pcount kcount :
  unpack_CALL_FUNCTION opname fr = Ok (Some (name, pcount, kcount)) ->
  Py.startswith name "CALL_FUNCTION" = true /\ 0 <= pcount /\ 0 <= kcount.
Proof.
  unfold unpack_CALL_FUNCTION, rbind.
  destruct (Py.getitem _ 0) as [c0|]; [|discriminate].
  destruct (Py.startswith (opname c0) "CALL_FUNCTION") eqn:E; [|discriminate].
  destruct (Py.getitem _ 1) as [c1|]; [|discriminate].
  destruct (Py.getitem _ 2) as [c2|]; [|discriminate].
  intros [= <- <- <-]. auto using PyFacts.ord_nonneg.
Qed.

(** At another instruction it returns [None]. *)
Lemma unpack_None fr bcode :
  current_bytecode opname fr = Ok bcode ->
  Py.startswith bcode "CALL_FUNCTION" = false ->
  unpack_CALL_FUNCTION opname fr = Ok None.
Proof.
  unfold current_bytecode, unpack_CALL_FUNCTION, rbind.
  destruct (Py.getitem (co_code (f_code fr)) (f_lasti fr)) as [c|] eqn:E;
    [|discriminate].
  intros [= <-] Hno.
  rewrite (PyFacts.getitem_slice_from _ _ _ E), Hno. reflexivity.
Qed.

(** The view the constructor builds at a call instruction. *)
Lemma ValueStack_init_call fr name pcount kcount s0 rest :
  unpack_CALL_FUNCTION opname fr = Ok (Some (name, pcount, kcount)) ->
  get_value_stack fr = s0 :: rest ->
  ValueStack_init opname fr =
  Ok {| stack := s0 :: rest;
        descriptor :=
          Some {| positional_args_count := pcount;
                  keyword_args_count := kcount;
                  args_count := pcount + 2 * kcount;
                  singlestar := Py.contains "_VAR" name;
                  doublestar := Py.contains "_KW" name |};
        offset := if callable s0 then 0 else 1;
        args_start := (if callable s0 then 0 else 1) + 1 |}.
Proof.
  intros Hu Hs. unfold ValueStack_init. rewrite Hu, Hs. reflexivity.
Qed.

(** A view that was built with a descriptor counts one slot per
    positional argument and two per keyword argument. *)
Lemma ValueStack_init_descriptor fr view d :
  ValueStack_init opname fr = Ok view ->
  descriptor view = Some d ->
  stack view = get_value_stack fr /\
  args_start view = offset view + 1 /\
  (offset view = 0 \/ offset view = 1) /\
  args_count d = positional_args_count d + 2 * keyword_args_count d /\
  0 <= positional_args_count d /\ 0 <= keyword_args_count d.
Proof.
  unfold ValueStack_init.
  destruct (unpack_CALL_FUNCTION opname fr) as [[[[name p] k]|]|e] eqn:Hu;
    cbv beta iota delta [rbind try_except exn_eqb].
  - destruct (unpack_Some _ _ _ _ Hu) as [_ [Hp Hk]].
    destruct (Py.getitem (get_value_stack fr) 0) as [s0|]; [|discriminate].
    intros [= <-]. cbn [descriptor stack args_start offset].
    intros [= <-].
    cbn [args_count positional_args_count keyword_args_count].
    destruct (callable s0); auto 10.
  - discriminate.
  - destruct e; try discriminate.
    destruct (Py.getitem (get_value_stack fr) 0); [|discriminate].
    intros [= <-]. discriminate.
Qed.
End ViewFacts.

Section ViewClaims.
Variable opname : byte -> string.

(** C5. At a call instruction the callee is the bottom slot of the operand
    stack when that slot is callable, and [positional_args] then reads the
    explicit positional slots right after it; when the bottom slot is not
    callable it is skipped: the callee is the second slot and the
    positional slots start after that one. *)
Theorem C5_offset_resolution fr name pcount kcount s0 rest :
  unpack_CALL_FUNCTION opname fr = Ok (Some (name, pcount, kcount)) ->
  get_value_stack fr = s0 :: rest ->
  exists view,
    ValueStack_init opname fr = Ok view /\
    if callable s0 then
      offset view = 0 /\
      bottom view = Ok s0 /\
      positional_args_from_stack view = Ok (firstn (Z.to_nat pcount) rest) /\
      (Py.contains "_VAR" name = false ->
       positional_args view = Ok (firstn (Z.to_nat pcount) rest))
    else
      offset view = 1 /\
      bottom view = match rest with
                    | s1 :: _ => Ok s1
                    | [] => Raise IndexError
                    end /\
      positional_args_from_stack view
      = Ok (firstn (Z.to_nat pcount) (tl rest)) /\
      (Py.contains "_VAR" name = false ->
       positional_args view = Ok (firstn (Z.to_nat pcount) (tl rest))).
Proof.
  intros Hu Hs.
  destruct (unpack_Some opname _ _ _ _ Hu) as [_ [Hp _]].
  rewrite (ValueStack_init_call opname _ _ _ _ _ _ Hu Hs).
  eexists. split; [reflexivity|].
  unfold positional_args, positional_args_from_stack, bottom, attr, rbind.
  cbn [stack descriptor offset args_start positional_args_count singlestar].
  destruct (callable s0).
  - change (0 + 1) with 1. rewrite slice_nonneg by lia.
    change (skipn (Z.to_nat 1) (s0 :: rest)) with rest.
    repeat split. intros ->. reflexivity.
  - change (1 + 1) with 2. rewrite slice_nonneg by lia.
    replace (skipn (Z.to_nat 2) (s0 :: rest)) with (tl rest)
      by (destruct rest; reflexivity).
    repeat split.
    + destruct rest; reflexivity.
    + intros ->. reflexivity.
Qed.

(** C4. With two positional arguments, one keyword argument and a
    variadic positional tuple on the stack
    [f, p1, p2, "k", v, (p3, p4)], the view yields the positional
    arguments [p1, p2, p3, p4] and the keyword arguments [{"k": v}]. *)
Theorem C4_worked_example fr name f p1 p2 v p3 p4 :
  unpack_CALL_FUNCTION opname fr = Ok (Some (name, 2, 1)) ->
  Py.contains "_VAR" name = true ->
  Py.contains "_KW" name = false ->
  callable f = true ->
  get_value_stack fr = [f; p1; p2; VStr "k"; v; VTuple [p3; p4]] ->
  exists view,
    ValueStack_init opname fr = Ok view /\
    bottom view = Ok f /\
    positional_args view = Ok [p1; p2; p3; p4] /\
    keyword_args view = Ok [(VStr "k", v)].
Proof.
  intros Hu Hvar Hkw Hf Hs.
  rewrite (ValueStack_init_call opname _ _ _ _ _ _ Hu Hs).
  rewrite Hvar, Hkw, Hf.
  eexists. split; [reflexivity|].
  repeat split.
Qed.

(** C6 (as the code behaves). A view built over a frame whose current
    instruction is not of the call family does not come into being: the
    constructor raises [TypeError], which its handler for [ValueError]
    lets through. *)
Theorem C6_view_off_call_raises fr bcode :
  current_bytecode opname fr = Ok bcode ->
  Py.startswith bcode "CALL_FUNCTION" = false ->
  ValueStack_init opname fr = Raise TypeError.
Proof.
  intros Hb Hno. unfold ValueStack_init.
  rewrite (unpack_None opname _ _ Hb Hno). reflexivity.
Qed.
End ViewClaims.

Lemma C5_offset_resolution_witness :
  exists view,
    ValueStack_init opname27
      (frame_at 3 [VNone; VBuiltin "len"; VInt 7]) = Ok view /\
    offset view = 1 /\
    bottom view = Ok (VBuiltin "len") /\
    positional_args_from_stack view = Ok [] /\
    (Py.contains "_VAR" "CALL_FUNCTION" = false ->
     positional_args view = Ok []).
Proof.
  exact (C5_offset_resolution opname27
           (frame_at 3 [VNone; VBuiltin "len"; VInt 7])
           "CALL_FUNCTION" 0 0 VNone [VBuiltin "len"; VInt 7]
           eq_refl eq_refl).
Defined.

Lemma C4_worked_example_witness :
  exists view,
    ValueStack_init opname27
      (frame_at 11 [VBuiltin "f"; VInt 1; VInt 2; VStr "k"; VInt 5;
                    VTuple [VInt 3; VInt 4]]) = Ok view /\
    bottom view = Ok (VBuiltin "f") /\
    positional_args view = Ok [VInt 1; VInt 2; VInt 3; VInt 4] /\
    keyword_args view = Ok [(VStr "k", VInt 5)].
Proof.
  apply (C4_worked_example opname27 _ "CALL_FUNCTION_VAR"); reflexivity.
Defined.

Lemma C6_view_off_call_raises_witness :
  ValueStack_init opname27 (frame_at 15 [VInt 7]) = Raise TypeError.
Proof.
  apply (C6_view_off_call_raises opname27 _ "LOAD_CONST"); reflexivity.
Defined.

Section KeywordArgs.
Variable opname : byte -> string.

(** The slot that [keyword_args_from_double_star] reads, counted from the
    first slot above the explicit arguments. *)
Lemma double_star_slot view d pre pos pairs above :
  descriptor view = Some d ->
  stack view = pre ++ pos ++ flat pairs ++ above ->
  Py.len pre = args_start view ->
  Py.len pos = positional_args_count d ->
  Py.len pairs = keyword_args_count d ->
  args_count d = positional_args_count d + 2 * keyword_args_count d ->
  keyword_args_from_double_star view
  = Py.getitem above (if singlestar d then 1 else 0).
Proof.
  intros Hd Hs Hpre Hpos Hkw Hcount.
  unfold keyword_args_from_double_star, stack_above_args, attr, rbind.
  rewrite Hd, Hs, Hcount, <- Hpre, <- Hpos, <- Hkw, <- len_flat.
  destruct (singlestar d).
  - replace (Py.len pre + (Py.len pos + Py.len (flat pairs)) + 1)
      with (Py.len pre + (Py.len pos + (Py.len (flat pairs) + 1))) by lia.
    pose proof (PyFacts.len_nonneg pos). pose proof (PyFacts.len_nonneg (flat pairs)).
    rewrite !PyFacts.getitem_app_r by lia. reflexivity.
  - replace (Py.len pre + (Py.len pos + Py.len (flat pairs)) + 0)
      with (Py.len pre + (Py.len pos + (Py.len (flat pairs) + 0))) by lia.
    pose proof (PyFacts.len_nonneg pos). pose proof (PyFacts.len_nonneg (flat pairs)).
    rewrite !PyFacts.getitem_app_r by lia. reflexivity.
Qed.

(** C9. The keyword arguments are read from the slots that follow the
    positional ones, taken as name, value, name, value, ...; with the
    variadic-keyword flag the mapping found in the first slot above the
    explicit arguments (the second when a variadic positional sequence
    sits there) is laid over them, and its entry wins for a name that
    occurs in both. *)
Theorem C9_keyword_args fr view d pre pos pairs above :
  ValueStack_init opname fr = Ok view ->
  descriptor view = Some d ->
  stack view = pre ++ pos ++ flat pairs ++ above ->
  Py.len pre = args_start view ->
  Py.len pos = positional_args_count d ->
  Py.len pairs = keyword_args_count d ->
  hashable_keys pairs = true ->
  (doublestar d = false ->
   exists kw, keyword_args view = Ok kw /\
     forall k, dict_get kw k = last_binding pairs k) /\
  (doublestar d = true ->
   forall m,
     nth_error above (if singlestar d then 1%nat else 0%nat)
     = Some (VDict m) ->
     wf_dict m ->
     exists kw, keyword_args view = Ok kw /\
       forall k, dict_get kw k = match dict_get m k with
                                 | Some v => Some v
                                 | None => last_binding pairs k
                                 end).
Proof.
  intros Hinit Hd Hs Hpre Hpos Hkw Hh.
  destruct (ValueStack_init_descriptor opname _ _ _ Hinit Hd)
    as [_ [_ [_ [Hcount _]]]].
  destruct (flatlist_to_dict_flat pairs Hh) as [kw0 [Hkw0 Hget0]].
  assert (Hexplicit : keyword_args_from_stack view = Ok kw0).
  { unfold keyword_args_from_stack, attr, rbind. rewrite Hd, Hs.
    rewrite <- Hpre, <- Hpos, <- Hkw, <- len_flat.
    rewrite app_assoc, <- PyFacts.len_app, PyFacts.slice_app_mid.
    exact Hkw0. }
  split; intros Hstar.
  - exists kw0. split; [|exact Hget0].
    unfold keyword_args, attr, rbind. rewrite Hexplicit, Hd, Hstar.
    reflexivity.
  - intros m Hslot [Hnd Hmh].
    destruct (store_pairs_lookup m kw0 Hmh) as [kw [Hstore Hget]].
    exists kw. split.
    + unfold keyword_args, attr. unfold rbind at 1 2.
      rewrite Hexplicit, Hd, Hstar.
      rewrite (double_star_slot _ _ _ _ _ _ Hd Hs Hpre Hpos Hkw Hcount).
      rewrite PyFacts.getitem_nonneg by (destruct (singlestar d); lia).
      replace (Z.to_nat (if singlestar d then 1 else 0))
        with (if singlestar d then 1%nat else 0%nat)
        by (destruct (singlestar d); reflexivity).
      rewrite Hslot. exact Hstore.
    + intros k. rewrite Hget, (last_binding_dict m k Hnd), Hget0.
      reflexivity.
Qed.
End KeywordArgs.

Lemma C9_keyword_args_witness :
  exists kw,
    keyword_args view_star2 = Ok kw /\
    forall k, dict_get kw k
              = match dict_get [(VStr "x", VInt 9); (VStr "y", VInt 4)] k with
                | Some v => Some v
                | None => last_binding [(VStr "x", VInt 2)] k
                end.
Proof.
  apply (proj2 (C9_keyword_args opname27 frame_star2 view_star2
                  {| positional_args_count := 1; keyword_args_count := 1;
                     args_count := 3; singlestar := true;
                     doublestar := true |}
                  [VBuiltin "f"] [VInt 1] [(VStr "x", VInt 2)]
                  [VTuple [VInt 3];
                   VDict [(VStr "x", VInt 9); (VStr "y", VInt 4)]]
                  eq_refl eq_refl eq_refl eq_refl eq_refl eq_refl eq_refl)
               eq_refl [(VStr "x", VInt 9); (VStr "y", VInt 4)] eq_refl).
  split; [|reflexivity].
  repeat constructor; cbn; intuition discriminate.
Defined.

(** ** Rewriting *)

(** Induction on a code block with the code blocks of its constant pool as
    the smaller cases. *)
Lemma code_nested_ind (P : code -> Prop) :
  (forall c, (forall n, In (VCode n) (co_consts c) -> P n) -> P c) ->
  forall c, P c.
Proof.
  intros H. fix IH 1. intros c. apply H.
  destruct c as [? ? ? ? ? constants ? ? ? ? ? ? ? ?]. cbn [co_consts].
  induction constants as [|v r IHr]; intros n Hin.
  - destruct Hin.
  - destruct Hin as [E|Hin].
    + destruct v; try discriminate E.
      injection E as E'. rewrite <- E'. apply IH.
    + exact (IHr n Hin).
Qed.

Lemma marker_pairs_mul n : marker_pairs (List.concat (repeat [x01; x01] n)) = true.
Proof. induction n as [|n IH]; [reflexivity|exact IH]. Qed.

(** The table written by [rewrite_lnotab] carries the marker as soon as the
    code block has two bytes. *)
Lemma marker_match_mul n :
  1 <= n -> marker_match (Py.mul [x01; x01] n) = true.
Proof.
  intros Hn. unfold Py.mul.
  destruct (Z.to_nat n) as [|m] eqn:E; [lia|].
  exact (marker_pairs_mul m).
Qed.

(** With one byte or none the table is empty and the marker is absent. *)
Lemma marker_match_mul_short n :
  n <= 0 -> marker_match (Py.mul [x01; x01] n) = false.
Proof.
  intros Hn. unfold Py.mul. replace (Z.to_nat n) with 0%nat by lia.
  reflexivity.
Qed.

(** One evaluation step of [rewrite_lnotab]. *)
Lemma rewrite_lnotab_eq c :
  rewrite_lnotab c =
  if has_been_rewritten c then None
  else Some (CodeType (co_argcount c) (co_nlocals c) (co_stacksize c)
                      (co_flags c) (co_code c)
                      (map (fun const =>
                              match const with
                              | VCode nested =>
                                  value_of_ref (rewrite_lnotab nested)
                              | _ => const
                              end) (co_consts c))
                      (co_names c) (co_varnames c) (co_filename c)
                      (co_name c) 0
                      (Py.mul [x01; x01] (Py.len (co_code c) - 1))
                      (co_freevars c) (co_cellvars c)).
Proof. destruct c; reflexivity. Qed.

Lemma rewrite_lnotab_done c :
  has_been_rewritten c = true -> rewrite_lnotab c = None.
Proof. intros H. rewrite rewrite_lnotab_eq, H. reflexivity. Qed.

Lemma fresh_eq c :
  fresh c = negb (has_been_rewritten c) && (2 <=? Py.len (co_code c))
            && forallb (fun v => match v with VCode n => fresh n | _ => true end)
                       (co_consts c).
Proof. destruct c; reflexivity. Qed.

Lemma instrumented_eq c :
  instrumented c = has_been_rewritten c
                   && forallb (fun v => match v with
                                        | VCode n => instrumented n
                                        | _ => true
                                        end) (co_consts c).
Proof. destruct c; reflexivity. Qed.

Lemma forallb_map_compose {A B} (f : B -> bool) (g : A -> B) (l : list A) :
  forallb f (map g l) = forallb (fun x => f (g x)) l.
Proof.
  induction l as [|x r IH]; cbn; [reflexivity|]. rewrite IH. reflexivity.
Qed.

(** On a code block that carries no marker anywhere, [rewrite_lnotab]
    returns a code block with the marker on it and on every nested code
    block, the same number of constants, and the body fields as they were. *)
Lemma rewrite_lnotab_fresh c :
  fresh c = true ->
  exists c',
    rewrite_lnotab c = Some c' /\
    instrumented c' = true /\
    same_body c c' /\
    co_lnotab c' = Py.mul [x01; x01] (Py.len (co_code c) - 1) /\
    co_firstlineno c' = 0 /\
    co_consts c' = map (fun const =>
                          match const with
                          | VCode nested =>
                              value_of_ref (rewrite_lnotab nested)
                          | _ => const
                          end) (co_consts c).
Proof.
  induction c as [c IH] using code_nested_ind.
  rewrite fresh_eq. intros Hf.
  apply andb_true_iff in Hf as [Hf Hnested].
  apply andb_true_iff in Hf as [Hnot Hlen].
  apply negb_true_iff in Hnot. apply Z.leb_le in Hlen.
  rewrite rewrite_lnotab_eq, Hnot.
  eexists. split; [reflexivity|].
  split; [|split; [|split; [|split]]].
  - rewrite instrumented_eq. unfold has_been_rewritten.
    cbn [co_lnotab co_consts].
    rewrite marker_match_mul by lia. cbn [andb].
    rewrite forallb_map_compose. apply forallb_forall. intros v Hin.
    rewrite forallb_forall in Hnested. specialize (Hnested v Hin).
    destruct v as [| | | | | |n| |]; try reflexivity.
    destruct (IH n Hin Hnested) as [n' [Hn' [Hins _]]].
    rewrite Hn'. exact Hins.
  - repeat split.
  - reflexivity.
  - reflexivity.
  - reflexivity.
Qed.

Lemma func_code_set r c w : func_code (set_func_code r c w) r = c.
Proof. cbn. rewrite Nat.eqb_refl. reflexivity. Qed.

Lemma call_stack_set r c w : call_stack (set_func_code r c w) = call_stack w.
Proof. reflexivity. Qed.

(** A code block of at most one byte gets an empty table, which does not
    carry the marker: it would be rewritten again. *)
Lemma rewrite_lnotab_short_block c :
  has_been_rewritten c = false ->
  Py.len (co_code c) <= 1 ->
  exists c', rewrite_lnotab c = Some c' /\ has_been_rewritten c' = false.
Proof.
  intros Hnot Hlen. rewrite rewrite_lnotab_eq, Hnot.
  eexists. split; [reflexivity|].
  unfold has_been_rewritten. cbn [co_lnotab].
  apply marker_match_mul_short. lia.
Qed.

(** C3 (as the code behaves). The first [rewrite_function] gives the
    function a code block that carries the marker; on the second one
    [rewrite_lnotab] detects the marker and returns [None], which
    [rewrite_function] assigns to [func_code]: the call raises [TypeError]
    instead of returning, with the function still on the rewritten block. *)
Theorem C3_second_rewrite_raises w r :
  has_been_rewritten (func_code w r) = false ->
  2 <= Py.len (co_code (func_code w r)) ->
  exists w1,
    rewrite_function (VFunction r) w = (Ok tt, w1) /\
    has_been_rewritten (func_code w1 r) = true /\
    rewrite_lnotab (func_code w1 r) = None /\
    rewrite_function (VFunction r) w1 = (Raise TypeError, w1).
Proof.
  intros Hnot Hlen.
  pose proof (rewrite_lnotab_eq (func_code w r)) as E. rewrite Hnot in E.
  match type of E with _ = Some ?c => set (c1 := c) in E end.
  assert (Hmark : has_been_rewritten c1 = true).
  { unfold has_been_rewritten. subst c1. cbn [co_lnotab].
    apply marker_match_mul. lia. }
  exists (set_func_code r c1 w).
  unfold rewrite_function.
  rewrite E, func_code_set, (rewrite_lnotab_done _ Hmark). auto.
Qed.

Lemma C3_second_rewrite_raises_witness :
  exists w1,
    rewrite_function (VFunction 0) world0 = (Ok tt, w1) /\
    has_been_rewritten (func_code w1 0%nat) = true /\
    rewrite_lnotab (func_code w1 0%nat) = None /\
    rewrite_function (VFunction 0) w1 = (Raise TypeError, w1).
Proof.
  apply (C3_second_rewrite_raises world0 0%nat); [reflexivity|].
  vm_compute. discriminate.
Defined.

(** C8 (as the code behaves). When a code block without the marker holds
    in its constant pool a code block that carries it, the rewritten block
    has [None] in that place: the nested code block is gone, not
    rewritten, and the pool entry satisfies no marker. *)
Theorem C8_nested_rewritten_block_is_lost c i nested :
  has_been_rewritten c = false ->
  nth_error (co_consts c) i = Some (VCode nested) ->
  has_been_rewritten nested = true ->
  exists c',
    rewrite_lnotab c = Some c' /\
    nth_error (co_consts c') i = Some VNone.
Proof.
  intros Hnot Hi Hdone. rewrite rewrite_lnotab_eq, Hnot.
  eexists. split; [reflexivity|].
  cbn [co_consts]. rewrite nth_error_map, Hi. cbn [option_map].
  rewrite (rewrite_lnotab_done _ Hdone). reflexivity.
Qed.

Lemma C8_nested_rewritten_block_is_lost_witness :
  exists c',
    rewrite_lnotab code_outer = Some c' /\
    nth_error (co_consts c') 0 = Some VNone.
Proof.
  apply (C8_nested_rewritten_block_is_lost code_outer 0%nat code_inner_done);
    reflexivity.
Defined.

(** ** The tracer *)

(** [H] says that a per-instruction notification was answered although,
    by the equations that follow, the call raised before it could be. *)
Ltac raised_early H :=
  exfalso; unfold trace in H;
  cbn [String.eqb Ascii.eqb Bool.eqb] in H;
  unfold mbind, lift in H;
  repeat match goal with
         | E : ?l = _ |- _ =>
             tryif constr_eq E H then fail
             else lazymatch type of H with
                  | context [l] => rewrite E in H
                  end
         end;
  discriminate H.

Section TracerFacts.
Variable opname : byte -> string.

(** *** One equation per kind of notification *)

Lemma trace_frame_entry fr w :
  trace opname fr "call" w
  = (Ok NoEvent, with_stack (Py.append (call_stack w) None) w).
Proof. reflexivity. Qed.

Lemma trace_frame_exit fr w :
  trace opname fr "return" w
  = match Py.pop (call_stack w) with
    | Ok (_, rest) => (Ok NoEvent, with_stack rest w)
    | Raise e => (Raise e, w)
    end.
Proof.
  unfold trace. cbn [String.eqb Ascii.eqb Bool.eqb].
  unfold mbind, pop, mret, with_stack.
  destruct (Py.pop (call_stack w)) as [[x rest]|e]; reflexivity.
Qed.

Lemma trace_exception fr w :
  trace opname fr "exception" w
  = match Py.getitem (call_stack w) (-1) with
    | Ok (Some _) =>
        match Py.pop (call_stack w) with
        | Ok (_, rest) => (Ok NoEvent, with_stack rest w)
        | Raise e => (Raise e, w)
        end
    | Ok None => (Ok NoEvent, w)
    | Raise e => (Raise e, w)
    end.
Proof.
  unfold trace. cbn [String.eqb Ascii.eqb Bool.eqb].
  unfold mbind, top, pop, mret, with_stack.
  destruct (Py.getitem (call_stack w) (-1)) as [[off|]|e]; cbn [is_not_None];
    [|reflexivity|reflexivity].
  destruct (Py.pop (call_stack w)) as [[x rest]|e]; reflexivity.
Qed.

Lemma trace_other_event fr ev w :
  ev <> "line"%string -> ev <> "call"%string ->
  ev <> "exception"%string -> ev <> "return"%string ->
  trace opname fr ev w = (Ok NoEvent, w).
Proof.
  intros H1 H2 H3 H4. unfold trace.
  apply String.eqb_neq in H1, H2, H3, H4.
  rewrite H1, H2, H3, H4. reflexivity.
Qed.

(** A per-instruction notification away from a call instruction. *)
Lemma trace_line_other fr w bcode :
  current_bytecode opname fr = Ok bcode ->
  Py.startswith bcode "CALL_FUNCTION" = false ->
  trace opname fr "line" w
  = match Py.getitem (call_stack w) (-1) with
    | Ok (Some off) =>
        match Py.pop (call_stack w) with
        | Ok (Some i, rest) =>
            match Py.getitem (get_value_stack fr) i with
            | Ok v => (Ok (c_return v), with_stack rest w)
            | Raise e => (Raise e, with_stack rest w)
            end
        | Ok (None, rest) => (Raise TypeError, with_stack rest w)
        | Raise e => (Raise e, w)
        end
    | Ok None =>
        if Py.startswith bcode "PRINT_" then (Ok print_stmt, w)
        else (Ok NoEvent, w)
    | Raise e => (Raise e, w)
    end.
Proof.
  intros Hb Hno. unfold trace. cbn [String.eqb Ascii.eqb Bool.eqb].
  unfold mbind at 1. unfold lift at 1. rewrite Hb, Hno.
  unfold mbind, top, pop, mret, lift, with_stack.
  destruct (Py.getitem (call_stack w) (-1)) as [[off|]|e]; cbn [is_not_None].
  - destruct (Py.pop (call_stack w)) as [[[i|] rest]|e]; reflexivity.
  - destruct (Py.startswith bcode "PRINT_"); reflexivity.
  - reflexivity.
Qed.

(** A per-instruction notification at a call instruction. *)
Lemma trace_line_call fr w bcode view function :
  current_bytecode opname fr = Ok bcode ->
  Py.startswith bcode "CALL_FUNCTION" = true ->
  ValueStack_init opname fr = Ok view ->
  bottom view = Ok function ->
  trace opname fr "line" w
  = if negb (is_c_func function) then
      (rewrite_function function ;;; mret NoEvent) w
    else
      (push (Some (offset view)) ;;;
       pargs <-- lift (positional_args view) ;;
       kargs <-- lift (keyword_args view) ;;
       rewrite_all (pargs ++ values kargs) ;;;
       mret (c_call function pargs kargs)) w.
Proof.
  intros Hb Hcall Hview Hbot. unfold trace.
  cbn [String.eqb Ascii.eqb Bool.eqb].
  unfold mbind at 1. unfold lift at 1. rewrite Hb, Hcall.
  unfold mbind at 1. unfold lift at 1. rewrite Hview.
  unfold mbind at 1. unfold lift at 1. rewrite Hbot.
  destruct (negb (is_c_func function)); reflexivity.
Qed.

(** Rewriting touches the store of function objects only. *)
Lemma rewrite_function_call_stack f w r w' :
  rewrite_function f w = (r, w') -> call_stack w' = call_stack w.
Proof.
  unfold rewrite_function. destruct f; try (intros [= _ <-]; reflexivity).
  destruct (rewrite_lnotab (func_code w ref)); intros [= _ <-]; reflexivity.
Qed.

Lemma rewrite_all_call_stack objects : forall w r w',
  rewrite_all objects w = (r, w') -> call_stack w' = call_stack w.
Proof.
  induction objects as [|obj rest IH]; intros w r w'; cbn [rewrite_all].
  - intros [= _ <-]. reflexivity.
  - unfold mbind.
    destruct (has_func_code obj).
    + destruct (rewrite_function obj w) as [[[]|e] w1] eqn:E.
      * intros H. rewrite (IH _ _ _ H).
        exact (rewrite_function_call_stack _ _ _ _ E).
      * intros [= _ <-]. exact (rewrite_function_call_stack _ _ _ _ E).
    + unfold mret. apply IH.
Qed.
End TracerFacts.

Section CallSite.
Variable opname : byte -> string.

(** A native callee at a call instruction: the event carries the callee
    and both argument collections, and the offset of the view is pushed. *)
Lemma trace_native_callee fr w bcode view function pargs kargs w' :
  current_bytecode opname fr = Ok bcode ->
  Py.startswith bcode "CALL_FUNCTION" = true ->
  ValueStack_init opname fr = Ok view ->
  bottom view = Ok function ->
  is_c_func function = true ->
  positional_args view = Ok pargs ->
  keyword_args view = Ok kargs ->
  rewrite_all (pargs ++ values kargs)
    (with_stack (Py.append (call_stack w) (Some (offset view))) w)
  = (Ok tt, w') ->
  trace opname fr "line" w = (Ok (c_call function pargs kargs), w') /\
  call_stack w' = Py.append (call_stack w) (Some (offset view)).
Proof.
  intros Hb Hcall Hview Hbot Hc Hp Hk Hrw.
  rewrite (trace_line_call opname _ _ _ _ _ Hb Hcall Hview Hbot), Hc.
  cbn [negb]. unfold mbind at 1. unfold push.
  unfold mbind at 1. unfold lift at 1. rewrite Hp.
  unfold mbind at 1. unfold lift at 1. rewrite Hk.
  unfold mbind at 1. fold (with_stack (Py.append (call_stack w)
                                         (Some (offset view))) w).
  rewrite Hrw. split; [reflexivity|].
  apply rewrite_all_call_stack in Hrw. exact Hrw.
Qed.

(** An interpreted callee that has not been rewritten: no event, nothing
    pushed, the function gets the rewritten code block. *)
Lemma trace_interpreted_callee fr w bcode view r c' :
  current_bytecode opname fr = Ok bcode ->
  Py.startswith bcode "CALL_FUNCTION" = true ->
  ValueStack_init opname fr = Ok view ->
  bottom view = Ok (VFunction r) ->
  rewrite_lnotab (func_code w r) = Some c' ->
  trace opname fr "line" w = (Ok NoEvent, set_func_code r c' w).
Proof.
  intros Hb Hcall Hview Hbot Hrw.
  rewrite (trace_line_call opname _ _ _ _ _ Hb Hcall Hview Hbot).
  cbn [is_c_func has_func_code negb]. unfold mbind, rewrite_function.
  rewrite Hrw. reflexivity.
Qed.

(** C1 (as the code behaves). At a call instruction whose callee is an
    interpreted function that was instrumented before, [trace] returns no
    event at all: [rewrite_function] assigns the [None] that
    [rewrite_lnotab] returns for a rewritten block, and the [TypeError]
    of that assignment leaves [trace]. *)
Theorem C1_instrumented_callee_raises fr w bcode view r :
  current_bytecode opname fr = Ok bcode ->
  Py.startswith bcode "CALL_FUNCTION" = true ->
  ValueStack_init opname fr = Ok view ->
  bottom view = Ok (VFunction r) ->
  has_been_rewritten (func_code w r) = true ->
  trace opname fr "line" w = (Raise TypeError, w).
Proof.
  intros Hb Hcall Hview Hbot Hdone.
  rewrite (trace_line_call opname _ _ _ _ _ Hb Hcall Hview Hbot).
  cbn [is_c_func has_func_code negb]. unfold mbind, rewrite_function.
  rewrite (rewrite_lnotab_done _ Hdone). reflexivity.
Qed.

(** What a [c_call] event tells about the notification it answers. *)
Lemma trace_c_call_inv fr w function pargs kargs w1 :
  trace opname fr "line" w = (Ok (c_call function pargs kargs), w1) ->
  exists view,
    ValueStack_init opname fr = Ok view /\
    bottom view = Ok function /\
    is_c_func function = true /\
    positional_args view = Ok pargs /\
    keyword_args view = Ok kargs /\
    call_stack w1 = Py.append (call_stack w) (Some (offset view)).
Proof.
  intros H.
  destruct (current_bytecode opname fr) as [bcode|x] eqn:Hb;
    [|raised_early H].
  destruct (Py.startswith bcode "CALL_FUNCTION") eqn:Hcall.
  - destruct (ValueStack_init opname fr) as [view|x] eqn:Hview;
      [|raised_early H].
    destruct (bottom view) as [f|x] eqn:Hbot;
      [|raised_early H].
    rewrite (trace_line_call opname _ _ _ _ _ Hb Hcall Hview Hbot) in H.
    destruct (is_c_func f) eqn:Hc; cbn [negb] in H.
    + unfold mbind at 1 in H. unfold push in H.
      unfold mbind at 1 in H. unfold lift at 1 in H.
      destruct (positional_args view) as [pa|] eqn:Hp; [|discriminate].
      unfold mbind at 1 in H. unfold lift at 1 in H.
      destruct (keyword_args view) as [ka|] eqn:Hk; [|discriminate].
      unfold mbind at 1 in H.
      destruct (rewrite_all _ _) as [[[]|] w2] eqn:Hrw; [|discriminate].
      unfold mret in H. injection H as <- <- <- <-.
      apply rewrite_all_call_stack in Hrw.
      exists view. auto 10.
    + unfold mbind in H.
      destruct (rewrite_function f w) as [[[]|] w2]; discriminate.
  - rewrite (trace_line_other opname _ _ _ Hb Hcall) in H.
    destruct (Py.getitem (call_stack w) (-1)) as [[off|]|];
      [|destruct (Py.startswith bcode "PRINT_")|]; try discriminate.
    destruct (Py.pop (call_stack w)) as [[[i|] rest]|]; try discriminate.
    destruct (Py.getitem (get_value_stack fr) i); discriminate.
Qed.
End CallSite.

(** The store after the first call of function object 0 was noticed. *)
Lemma first_call_is_silent :
  trace opname27 (frame_at 3 [VFunction 0]) "line" world0
  = (Ok NoEvent,
     snd (trace opname27 (frame_at 3 [VFunction 0]) "line" world0)) /\
  call_stack (snd (trace opname27 (frame_at 3 [VFunction 0]) "line" world0))
  = [].
Proof. split; reflexivity. Qed.

Lemma C1_instrumented_callee_raises_witness :
  trace opname27 (frame_at 3 [VFunction 0]) "line"
        (snd (trace opname27 (frame_at 3 [VFunction 0]) "line" world0))
  = (Raise TypeError,
     snd (trace opname27 (frame_at 3 [VFunction 0]) "line" world0)).
Proof.
  apply (C1_instrumented_callee_raises opname27 _ _ "CALL_FUNCTION"
           {| stack := [VFunction 0];
              descriptor := Some {| positional_args_count := 0;
                                    keyword_args_count := 0;
                                    args_count := 0;
                                    singlestar := false;
                                    doublestar := false |};
              offset := 0; args_start := 1 |} 0%nat);
    reflexivity.
Defined.

Section Pending.
Variable opname : byte -> string.

(** C10. At an instruction of the print family, which is not a call
    instruction, a pending native call on top of the stack takes
    precedence: the marker is popped, the notification is answered with
    the return value read at the marker's offset and never with the
    output-statement event; that event is returned only with the
    interpreted-frame marker on top, and leaves the state as it is. *)
Theorem C10_no_output_while_pending fr w bcode :
  current_bytecode opname fr = Ok bcode ->
  Py.startswith bcode "PRINT_" = true ->
  Py.startswith bcode "CALL_FUNCTION" = false /\
  (forall below off,
     call_stack w = below ++ [Some off] ->
     fst (trace opname fr "line" w) <> Ok print_stmt /\
     call_stack (snd (trace opname fr "line" w)) = below /\
     forall v,
       Py.getitem (get_value_stack fr) off = Ok v ->
       trace opname fr "line" w = (Ok (c_return v), with_stack below w)) /\
  (fst (trace opname fr "line" w) = Ok print_stmt ->
   snd (trace opname fr "line" w) = w /\
   exists below, call_stack w = below ++ [None]).
Proof.
  intros Hb Hprint.
  pose proof (PyFacts.print_is_not_call _ Hprint) as Hno.
  split; [exact Hno|].
  rewrite (trace_line_other opname _ _ _ Hb Hno). split.
  - intros below off Hcs. rewrite Hcs, PyFacts.getitem_top.
    change (below ++ [Some off]) with (Py.append below (Some off)).
    rewrite PyFacts.pop_append.
    destruct (Py.getitem (get_value_stack fr) off) as [v|e];
      cbn [fst snd call_stack with_stack].
    + repeat split; [discriminate|]. intros v' [= <-]. reflexivity.
    + repeat split; [discriminate|]. intros v'. discriminate.
  - destruct (PyFacts.snoc_cases (call_stack w)) as [Hnil|[below [x Hcs]]].
    + rewrite Hnil, PyFacts.getitem_nil. discriminate.
    + rewrite Hcs, PyFacts.getitem_top. destruct x as [off|].
      * change (below ++ [Some off]) with (Py.append below (Some off)).
        rewrite PyFacts.pop_append.
        destruct (Py.getitem (get_value_stack fr) off); discriminate.
      * rewrite Hprint. intros _. split; [reflexivity|].
        exists below. reflexivity.
Qed.

(** C7. A native call that raises: the call was announced and its marker
    pushed; the exception notification that follows pops the marker and
    returns no event, so no return is announced and the stack is as deep
    as before the call. With the marker of an interpreted frame on top an
    exception notification changes nothing; that marker goes at the
    frame-exit notification. *)
Theorem C7_raising_native_call fr w function pargs kargs w1 :
  trace opname fr "line" w = (Ok (c_call function pargs kargs), w1) ->
  (exists off, call_stack w1 = call_stack w ++ [Some off]) /\
  (forall fr',
     exists w2,
       trace opname fr' "exception" w1 = (Ok NoEvent, w2) /\
       call_stack w2 = call_stack w /\
       func_code w2 = func_code w1 /\
       depth w2 = depth w) /\
  (forall fr' w' below,
     call_stack w' = below ++ [None] ->
     trace opname fr' "exception" w' = (Ok NoEvent, w') /\
     trace opname fr' "return" w' = (Ok NoEvent, with_stack below w')).
Proof.
  intros Hcall.
  destruct (trace_c_call_inv opname _ _ _ _ _ _ Hcall)
    as [view [_ [_ [_ [_ [_ Hcs]]]]]].
  split; [exists (offset view); exact Hcs|]. split.
  - intros fr'. exists (with_stack (call_stack w) w1).
    rewrite trace_exception, Hcs. unfold Py.append at 1.
    rewrite PyFacts.getitem_top, PyFacts.pop_append.
    repeat split.
  - intros fr' w' below Hcs'. split.
    + rewrite trace_exception, Hcs', PyFacts.getitem_top. reflexivity.
    + rewrite trace_frame_exit, Hcs'.
      change (below ++ [None]) with (Py.append below (@None Z)).
      rewrite PyFacts.pop_append. reflexivity.
Qed.
End Pending.

Lemma C10_no_output_while_pending_witness :
  Py.startswith "PRINT_ITEM" "CALL_FUNCTION" = false /\
  (forall below off,
     call_stack (with_stack [None; Some 0] world0) = below ++ [Some off] ->
     fst (trace opname27 (frame_at 6 [VInt 7]) "line"
                (with_stack [None; Some 0] world0)) <> Ok print_stmt /\
     call_stack (snd (trace opname27 (frame_at 6 [VInt 7]) "line"
                            (with_stack [None; Some 0] world0))) = below /\
     forall v,
       Py.getitem (get_value_stack (frame_at 6 [VInt 7])) off = Ok v ->
       trace opname27 (frame_at 6 [VInt 7]) "line"
             (with_stack [None; Some 0] world0)
       = (Ok (c_return v), with_stack below (with_stack [None; Some 0] world0)))
  /\
  (fst (trace opname27 (frame_at 6 [VInt 7]) "line"
              (with_stack [None; Some 0] world0)) = Ok print_stmt ->
   snd (trace opname27 (frame_at 6 [VInt 7]) "line"
              (with_stack [None; Some 0] world0))
   = with_stack [None; Some 0] world0 /\
   exists below,
     call_stack (with_stack [None; Some 0] world0) = below ++ [None]).
Proof.
  apply (C10_no_output_while_pending opname27 (frame_at 6 [VInt 7])
           (with_stack [None; Some 0] world0) "PRINT_ITEM");
    reflexivity.
Defined.

(** [f(1, 2, k=5, *(3, 4))] announced from an empty stack, then raising. *)
Lemma C7_raising_native_call_witness :
  (exists off, call_stack
     (with_stack [Some 0] world0) = call_stack world0 ++ [Some off]) /\
  (forall fr',
     exists w2,
       trace opname27 fr' "exception" (with_stack [Some 0] world0)
       = (Ok NoEvent, w2) /\
       call_stack w2 = call_stack world0 /\
       func_code w2 = func_code (with_stack [Some 0] world0) /\
       depth w2 = depth world0) /\
  (forall fr' w' below,
     call_stack w' = below ++ [None] ->
     trace opname27 fr' "exception" w' = (Ok NoEvent, w') /\
     trace opname27 fr' "return" w' = (Ok NoEvent, with_stack below w')).
Proof.
  apply (C7_raising_native_call opname27
           (frame_at 11 [VBuiltin "f"; VInt 1; VInt 2; VStr "k"; VInt 5;
                         VTuple [VInt 3; VInt 4]])
           world0 (VBuiltin "f") [VInt 1; VInt 2; VInt 3; VInt 4]
           [(VStr "k", VInt 5)] (with_stack [Some 0] world0)).
  reflexivity.
Defined.

(** ** Depth of the pending-call stack along a run *)

Lemma last_cons {A} (l : list A) : forall a d, last (a :: l) d = last l a.
Proof.
  induction l as [|b r IH]; intros a d; [reflexivity|].
  change (last (a :: b :: r) d) with (last (b :: r) d).
  rewrite (IH b d), (IH b a). reflexivity.
Qed.

Lemma final_cons w s h : final w (s :: h) = final (after s) h.
Proof. unfold final. cbn [map]. apply last_cons. Qed.

Section RunFacts.
Variable opname : byte -> string.

(** The four ways a per-instruction notification can be answered. *)
Lemma trace_line_inv fr w e w' :
  trace opname fr "line" w = (Ok e, w') ->
  (e = NoEvent /\ call_stack w' = call_stack w) \/
  (exists f pa ka off,
      e = c_call f pa ka /\
      call_stack w' = Py.append (call_stack w) (Some off)) \/
  (exists v off,
      e = c_return v /\
      call_stack w = Py.append (call_stack w') (Some off)) \/
  (e = print_stmt /\ w' = w).
Proof.
  intros H.
  destruct (current_bytecode opname fr) as [bcode|x] eqn:Hb;
    [|raised_early H].
  destruct (Py.startswith bcode "CALL_FUNCTION") eqn:Hcall.
  - destruct (ValueStack_init opname fr) as [view|x] eqn:Hview;
      [|raised_early H].
    destruct (bottom view) as [f|x] eqn:Hbot;
      [|raised_early H].
    rewrite (trace_line_call opname _ _ _ _ _ Hb Hcall Hview Hbot) in H.
    destruct (is_c_func f); cbn [negb] in H.
    + unfold mbind at 1 in H. unfold push in H.
      unfold mbind at 1 in H. unfold lift at 1 in H.
      destruct (positional_args view) as [pa|]; [|discriminate].
      unfold mbind at 1 in H. unfold lift at 1 in H.
      destruct (keyword_args view) as [ka|]; [|discriminate].
      unfold mbind at 1 in H.
      destruct (rewrite_all _ _) as [[[]|] w2] eqn:Hrw; [|discriminate].
      injection H as <- <-. right. left.
      exists f, pa, ka, (offset view). split; [reflexivity|].
      exact (rewrite_all_call_stack _ _ _ _ Hrw).
    + unfold mbind in H.
      destruct (rewrite_function f w) as [[[]|] w2] eqn:Hrw; [|discriminate].
      injection H as <- <-. left. split; [reflexivity|].
      exact (rewrite_function_call_stack _ _ _ _ Hrw).
  - rewrite (trace_line_other opname _ _ _ Hb Hcall) in H.
    destruct (PyFacts.snoc_cases (call_stack w)) as [Hnil|[below [x Hcs]]].
    + rewrite Hnil, PyFacts.getitem_nil in H. discriminate.
    + rewrite Hcs, PyFacts.getitem_top in H.
      change (below ++ [x]) with (Py.append below x) in H.
      rewrite PyFacts.pop_append in H.
      destruct x as [off|].
      * destruct (Py.getitem (get_value_stack fr) off) as [v|];
          [|discriminate].
        injection H as <- <-. right. right. left.
        exists v, off. split; [reflexivity|exact Hcs].
      * destruct (Py.startswith bcode "PRINT_"); injection H as <- <-; auto.
Qed.
End RunFacts.

(** *** The pending-call stack against the nesting of the stream *)

Lemma mirrors_nil b : mirrors [] b -> b = [].
Proof.
  unfold mirrors. destruct b; [reflexivity|discriminate].
Qed.

Lemma mirrors_append cs b (x : option Z) k :
  mirrors cs b -> is_not_None x = is_native k ->
  mirrors (Py.append cs x) (Py.append b k).
Proof.
  unfold mirrors, Py.append. intros H E. rewrite !map_app, H. cbn [map].
  rewrite E. reflexivity.
Qed.

Lemma mirrors_snoc cs b k :
  mirrors cs (b ++ [k]) ->
  exists cs' x,
    cs = cs' ++ [x] /\ mirrors cs' b /\ is_not_None x = is_native k.
Proof.
  unfold mirrors. intros H.
  destruct (PyFacts.snoc_cases cs) as [->|[cs' [x ->]]].
  - rewrite map_app in H. destruct (map is_native b); discriminate H.
  - exists cs', x. split; [reflexivity|].
    rewrite !map_app in H. cbn [map] in H.
    apply app_inj_tail in H. exact H.
Qed.

Lemma mirrors_len cs b : mirrors cs b -> Py.len cs = Py.len b.
Proof.
  unfold mirrors, Py.len. intros H.
  apply (f_equal (@List.length bool)) in H. rewrite !length_map in H.
  rewrite H. reflexivity.
Qed.

Lemma native_over_nil : native_over [] = [].
Proof. reflexivity. Qed.

Lemma native_over_snoc b k :
  native_over (b ++ [k]) = if is_native k then b else b ++ [k].
Proof.
  unfold native_over. change (b ++ [k]) with (Py.append b k).
  rewrite PyFacts.pop_append. destruct k; reflexivity.
Qed.

Lemma native_innermost_snoc b k : native_innermost (b ++ [k]) = is_native k.
Proof.
  unfold native_innermost. rewrite PyFacts.getitem_top.
  destruct k; reflexivity.
Qed.

Lemma native_over_idle b : native_innermost b = false -> native_over b = b.
Proof.
  destruct (PyFacts.snoc_cases b) as [->|[b' [k ->]]]; [reflexivity|].
  rewrite native_innermost_snoc, native_over_snoc. intros ->. reflexivity.
Qed.

Lemma frames_in_append b k :
  frames_in (Py.append b k) = frames_in b + (if is_native k then 0 else 1).
Proof.
  unfold frames_in, Py.append. rewrite filter_app, length_app.
  destruct k; cbn; lia.
Qed.

Lemma natives_append b k :
  native_calls_in_progress (Py.append b k)
  = native_calls_in_progress b + (if is_native k then 1 else 0).
Proof.
  unfold native_calls_in_progress, Py.append. rewrite filter_app, length_app.
  destruct k; cbn; lia.
Qed.

Lemma frames_in_native_over b : frames_in (native_over b) = frames_in b.
Proof.
  destruct (PyFacts.snoc_cases b) as [->|[b' [k ->]]]; [reflexivity|].
  rewrite native_over_snoc. destruct k; cbn [is_native]; [reflexivity|].
  change (b' ++ [InNative]) with (Py.append b' InNative).
  rewrite frames_in_append. cbn [is_native]. lia.
Qed.

Lemma len_boundaries b :
  Py.len b = frames_in b + native_calls_in_progress b.
Proof.
  unfold Py.len, frames_in, native_calls_in_progress, is_frame.
  induction b as [|k r IH]; [reflexivity|].
  cbn [filter List.length]. destruct k; cbn [is_native negb List.length]; lia.
Qed.

Lemma occurrences_cons ev n ns :
  occurrences ev (n :: ns)
  = (if String.eqb (snd n) ev then 1 else 0) + occurrences ev ns.
Proof.
  unfold occurrences. cbn [filter].
  destruct (String.eqb (snd n) ev); cbn [List.length]; lia.
Qed.

Section Depth.
Variable opname : byte -> string.

(** What a per-instruction notification does to the stack at a call
    instruction: an offset is pushed for a native callee, nothing is
    changed for another one. *)
Lemma trace_at_call_site fr w e w' :
  trace opname fr "line" w = (Ok e, w') ->
  at_call_instruction opname fr = true ->
  (native_call_site opname fr = true /\
   exists off, call_stack w' = Py.append (call_stack w) (Some off)) \/
  (native_call_site opname fr = false /\ call_stack w' = call_stack w).
Proof.
  intros H Hat. unfold native_call_site. rewrite Hat. cbn [andb].
  unfold at_call_instruction in Hat.
  destruct (current_bytecode opname fr) as [bcode|x] eqn:Hb;
    [|discriminate Hat].
  destruct (ValueStack_init opname fr) as [view|x] eqn:Hview;
    [|raised_early H].
  cbn [rbind].
  destruct (bottom view) as [f|x] eqn:Hbot; [|raised_early H].
  rewrite (trace_line_call opname _ _ _ _ _ Hb Hat Hview Hbot) in H.
  destruct (is_c_func f); cbn [negb] in H.
  - left. split; [reflexivity|].
    unfold mbind at 1 in H. unfold push in H.
    unfold mbind at 1 in H. unfold lift at 1 in H.
    destruct (positional_args view) as [pa|]; [|discriminate].
    unfold mbind at 1 in H. unfold lift at 1 in H.
    destruct (keyword_args view) as [ka|]; [|discriminate].
    unfold mbind at 1 in H.
    destruct (rewrite_all _ _) as [[[]|] w2] eqn:Hrw; [|discriminate].
    injection H as _ <-. exists (offset view).
    exact (rewrite_all_call_stack _ _ _ _ Hrw).
  - right. split; [reflexivity|].
    unfold mbind in H.
    destruct (rewrite_function f w) as [[[]|] w2] eqn:Hrw; [|discriminate].
    injection H as _ <-.
    exact (rewrite_function_call_stack _ _ _ _ Hrw).
Qed.

(** Away from a call instruction no native call begins. *)
Lemma trace_off_call_site fr w e w' :
  trace opname fr "line" w = (Ok e, w') ->
  at_call_instruction opname fr = false ->
  native_call_site opname fr = false /\
  exists bcode,
    current_bytecode opname fr = Ok bcode /\
    Py.startswith bcode "CALL_FUNCTION" = false.
Proof.
  intros H Hat. unfold native_call_site. rewrite Hat.
  split; [reflexivity|]. unfold at_call_instruction in Hat.
  destruct (current_bytecode opname fr) as [bcode|x] eqn:Hb;
    [|raised_early H].
  exists bcode. split; [reflexivity|exact Hat].
Qed.

(** One answered notification keeps the pending-call stack in step with
    the nesting, unless it arrives at a call instruction with a native
    call innermost. *)
Lemma trace_mirrors fr ev w e w' b b' :
  trace opname fr ev w = (Ok e, w') ->
  nest opname b (fr, ev) = Some b' ->
  call_after_native opname b (fr, ev) = false ->
  mirrors (call_stack w) b ->
  mirrors (call_stack w') b'.
Proof.
  unfold nest, call_after_native. cbn [fst snd].
  destruct (String.eqb_spec ev "call") as [->|Hentry].
  { rewrite trace_frame_entry. intros [= _ <-] [= <-] _ Hm.
    cbn [call_stack with_stack]. apply mirrors_append; [exact Hm|reflexivity]. }
  destruct (String.eqb_spec ev "return") as [->|Hexit].
  { rewrite trace_frame_exit. intros Ht Hn _ Hm.
    destruct (PyFacts.snoc_cases b) as [->|[b0 [k ->]]]; [discriminate Hn|].
    change (b0 ++ [k]) with (Py.append b0 k) in Hn.
    rewrite PyFacts.pop_append in Hn.
    destruct k; [|discriminate Hn]. injection Hn as <-.
    destruct (mirrors_snoc _ _ _ Hm) as [cs' [x [Hcs [Hm' _]]]].
    rewrite Hcs in Ht. change (cs' ++ [x]) with (Py.append cs' x) in Ht.
    rewrite PyFacts.pop_append in Ht. injection Ht as _ <-. exact Hm'. }
  destruct (String.eqb_spec ev "exception") as [->|Hexc].
  { rewrite trace_exception. intros Ht [= <-] _ Hm.
    destruct (PyFacts.snoc_cases b) as [->|[b0 [k ->]]].
    - unfold mirrors in Hm. destruct (call_stack w); [|discriminate Hm].
      rewrite PyFacts.getitem_nil in Ht. discriminate Ht.
    - destruct (mirrors_snoc _ _ _ Hm) as [cs' [x [Hcs [Hm' Hx]]]].
      rewrite Hcs, PyFacts.getitem_top in Ht. rewrite native_over_snoc.
      destruct x as [off|]; destruct k; try discriminate Hx.
      + change (cs' ++ [Some off]) with (Py.append cs' (Some off)) in Ht.
        rewrite PyFacts.pop_append in Ht. injection Ht as _ <-. exact Hm'.
      + injection Ht as _ <-. exact Hm. }
  destruct (String.eqb_spec ev "line") as [->|Hline].
  { cbn [andb]. intros Ht [= <-] Hslip Hm.
    destruct (at_call_instruction opname fr) eqn:Hat; cbn [andb] in Hslip.
    - rewrite (native_over_idle _ Hslip).
      destruct (trace_at_call_site _ _ _ _ Ht Hat)
        as [[-> [off ->]]|[-> ->]]; [|exact Hm].
      apply mirrors_append; [exact Hm|reflexivity].
    - destruct (trace_off_call_site _ _ _ _ Ht Hat)
        as [-> [bcode [Hb Hno]]].
      rewrite (trace_line_other opname _ _ _ Hb Hno) in Ht.
      destruct (PyFacts.snoc_cases b) as [->|[b0 [k ->]]].
      + unfold mirrors in Hm. destruct (call_stack w); [|discriminate Hm].
        rewrite PyFacts.getitem_nil in Ht. discriminate Ht.
      + destruct (mirrors_snoc _ _ _ Hm) as [cs' [x [Hcs [Hm' Hx]]]].
        rewrite Hcs, PyFacts.getitem_top in Ht. rewrite native_over_snoc.
        destruct x as [off|]; destruct k; try discriminate Hx.
        * change (cs' ++ [Some off]) with (Py.append cs' (Some off)) in Ht.
          rewrite PyFacts.pop_append in Ht.
          destruct (Py.getitem (get_value_stack fr) off); [|discriminate Ht].
          injection Ht as _ <-. exact Hm'.
        * destruct (Py.startswith bcode "PRINT_");
            injection Ht as _ <-; exact Hm. }
  rewrite (trace_other_event opname fr ev w Hline Hentry Hexc Hexit).
  intros [= _ <-] [= <-] _ Hm. exact Hm.
Qed.

(** The history of a prefix is the prefix of the history. *)
Lemma run_firstn ns : forall n w,
  firstn n (run opname ns w) = run opname (firstn n ns) w.
Proof.
  induction ns as [|x rest IH]; intros n w.
  - destruct n; reflexivity.
  - destruct n as [|n]; [reflexivity|].
    cbn [firstn run]. f_equal.
    destruct (fst (trace opname (fst x) (snd x) w)).
    + apply IH.
    + destruct n; reflexivity.
Qed.

Lemma run_mirrors ns : forall w b b',
  succeeded (run opname ns w) = true ->
  nesting opname b ns = Some b' ->
  calls_apart opname b ns = true ->
  mirrors (call_stack w) b ->
  mirrors (call_stack (final w (run opname ns w))) b'.
Proof.
  induction ns as [|[fr ev] rest IH]; intros w b b' Hok Hn Hslip Hm.
  - injection Hn as <-. exact Hm.
  - cbn [run nesting calls_apart fst snd] in *.
    rewrite final_cons. cbn [after].
    destruct (nest opname b (fr, ev)) as [b1|] eqn:Hstep; [|discriminate Hn].
    apply andb_true_iff in Hslip as [Hhere Hslip].
    apply negb_true_iff in Hhere.
    destruct (trace opname fr ev w) as [[e|x] w'] eqn:Ht;
      cbn [fst snd] in *; [|discriminate Hok].
    cbn [succeeded forallb outcome andb] in Hok.
    apply (IH w' b1 b' Hok Hn Hslip).
    exact (trace_mirrors _ _ _ _ _ _ _ Ht Hstep Hhere Hm).
Qed.

(** The frames of the nesting are the frame-entry notifications not yet
    matched by a frame-exit notification. *)
Lemma nesting_frames ns : forall b b',
  nesting opname b ns = Some b' ->
  frames_in b' = frames_in b + frames_entered_not_exited ns.
Proof.
  unfold frames_entered_not_exited.
  induction ns as [|[fr ev] rest IH]; intros b b' Hn.
  - injection Hn as <-. cbn. lia.
  - cbn [nesting] in Hn.
    destruct (nest opname b (fr, ev)) as [b1|] eqn:Hstep; [|discriminate Hn].
    rewrite (IH _ _ Hn), !occurrences_cons. cbn [snd].
    unfold nest in Hstep. cbn [fst snd] in Hstep.
    destruct (String.eqb_spec ev "call") as [->|Hentry].
    { injection Hstep as <-. rewrite frames_in_append.
      cbn [is_native String.eqb Ascii.eqb Bool.eqb]. lia. }
    destruct (String.eqb_spec ev "return") as [->|Hexit].
    { destruct (PyFacts.snoc_cases b) as [->|[b0 [k ->]]];
        [discriminate Hstep|].
      change (b0 ++ [k]) with (Py.append b0 k) in *.
      rewrite PyFacts.pop_append in Hstep.
      destruct k; [|discriminate Hstep]. injection Hstep as <-.
      rewrite frames_in_append. cbn [is_native]. lia. }
    destruct (String.eqb_spec ev "exception") as [->|Hexc].
    { injection Hstep as <-. rewrite frames_in_native_over. lia. }
    destruct (String.eqb_spec ev "line") as [->|Hline].
    { injection Hstep as <-.
      destruct (native_call_site opname fr).
      - rewrite frames_in_append, frames_in_native_over.
        cbn [is_native]. lia.
      - rewrite frames_in_native_over. lia. }
    injection Hstep as <-. lia.
Qed.

(** C2, amended. From an empty pending-call stack, over a stream in which
    each frame-exit notification closes a frame that is innermost, in
    which no per-instruction notification arrives at a call instruction
    while a native call is innermost, and on which [trace] raises
    nothing: after each notification the depth is the number of
    frame-entry notifications minus that of frame-exit notifications,
    plus the number of native calls in progress, a native call being in
    progress from the notification at its call instruction to the first
    per-instruction or exception notification that finds it innermost.
    The stack is not guarded: a frame-exit notification that finds it
    empty raises [IndexError]. *)
Theorem C2_depth_accounting ns w n b :
  call_stack w = [] ->
  succeeded (run opname (firstn n ns) w) = true ->
  nesting opname [] (firstn n ns) = Some b ->
  calls_apart opname [] (firstn n ns) = true ->
  depth (final w (run opname (firstn n ns) w))
  = frames_entered_not_exited (firstn n ns) + native_calls_in_progress b /\
  (forall fr, trace opname fr "return" w = (Raise IndexError, w)).
Proof.
  intros Hempty Hok Hn Hslip. split.
  - assert (Hm : mirrors (call_stack w) []) by (rewrite Hempty; reflexivity).
    pose proof (run_mirrors _ _ _ _ Hok Hn Hslip Hm) as Hfinal.
    unfold depth. rewrite (mirrors_len _ _ Hfinal), len_boundaries.
    rewrite (nesting_frames _ _ _ Hn). cbn. lia.
  - intros fr. rewrite trace_frame_exit, Hempty. reflexivity.
Qed.
End Depth.

(** After the frame entry and the announced call of
    [script_raising_native]: one frame and one native call. *)
Lemma C2_depth_accounting_witness :
  depth (final world0 (run opname27 (firstn 2 script_raising_native) world0))
  = frames_entered_not_exited (firstn 2 script_raising_native)
    + native_calls_in_progress [InFrame; InNative] /\
  (forall fr, trace opname27 fr "return" world0 = (Raise IndexError, world0)).
Proof.
  apply (C2_depth_accounting opname27 script_raising_native world0 2
           [InFrame; InNative]);
    reflexivity.
Defined.

(** The depths along that script: entry, announced call, retired call,
    exit. *)
Lemma script_raising_native_depths :
  map (fun s => depth (after s)) (run opname27 script_raising_native world0)
  = [1; 2; 1; 0] /\
  map outcome (run opname27 script_raising_native world0)
  = [Ok NoEvent;
     Ok (c_call (VBuiltin "f") [VInt 1; VInt 2; VInt 3; VInt 4]
                [(VStr "k", VInt 5)]);
     Ok NoEvent; Ok NoEvent].
Proof. split; reflexivity. Qed.

(** C2, as stated, fails: a frame-exit notification as the first one of a
    stream reaches the pop with the stack empty. *)
Lemma C2_frame_exit_pops_empty_stack :
  call_stack world0 = [] /\
  exists s,
    In s (run opname27 [(frame_at 18 [VNone], "return"%string)] world0) /\
    popped_when_empty s /\
    outcome s = Raise IndexError.
Proof.
  split; [reflexivity|].
  eexists. split; [left; reflexivity|].
  split; [split; reflexivity|reflexivity].
Qed.

(** Two call instructions in a row, as in [len(repr(x))]: the second
    notification arrives at a call instruction, so the marker of the first
    call stays; one marker is left when the frame has no native call in
    progress any more, and the frame-exit pops that one instead of the
    frame's own. *)
Lemma nested_native_calls_leave_a_marker :
  map (fun s => call_stack (after s))
      (run opname27 script_nested_calls world0)
  = [[None]; [None; Some 0]; [None; Some 0; Some 0]; [None; Some 0]; [None]]
  /\
  map emits_native_return (run opname27 script_nested_calls world0)
  = [false; false; false; true; false].
Proof. split; reflexivity. Qed.

(** On that stream, which raises nothing and closes its frame properly,
    the second call instruction is notified with a native call innermost;
    at its end nothing is open and one marker is left. *)
Lemma back_to_back_calls_are_left_out :
  succeeded (run opname27 script_nested_calls world0) = true /\
  nesting opname27 [] script_nested_calls = Some [] /\
  calls_apart opname27 [] script_nested_calls = false /\
  frames_entered_not_exited script_nested_calls = 0 /\
  depth (final world0 (run opname27 script_nested_calls world0)) = 1.
Proof. repeat split. Qed.


(** * Further properties of the decoder, the rewriter and the tracer *)

(** ** Decoding the instruction *)

Lemma slice_from_app {A} (a b : list A) : Py.slice_from (a ++ b) (Py.len a) = b.
Proof.
  unfold Py.slice_from.
  pose proof (PyFacts.len_nonneg a). pose proof (PyFacts.len_nonneg b).
  rewrite PyFacts.clamp_in_range by (rewrite PyFacts.len_app; lia).
  unfold Py.len. rewrite Nat2Z.id, skipn_app, skipn_all, Nat.sub_diag.
  reflexivity.
Qed.

Lemma getitem_at_len {A} (a b : list A) :
  Py.getitem (a ++ b) (Py.len a) = Py.getitem b 0.
Proof.
  rewrite <- (Z.add_0_r (Py.len a)). apply PyFacts.getitem_app_r. lia.
Qed.

Lemma getitem_beyond {A} (l : list A) i :
  Py.len l <= i -> Py.getitem l i = Raise IndexError.
Proof.
  intros Hi. pose proof (PyFacts.len_nonneg l).
  rewrite PyFacts.getitem_nonneg by lia.
  destruct (nth_error l (Z.to_nat i)) eqn:E; [|reflexivity].
  assert (Z.to_nat i < List.length l)%nat by (apply nth_error_Some; congruence).
  unfold Py.len in *. lia.
Qed.

Section DecodeFacts.
Variable opname : byte -> string.

Lemma current_bytecode_at fr op lo hi :
  at_instruction fr op lo hi -> current_bytecode opname fr = Ok (opname op).
Proof.
  intros [pre [post [Hcode Hi]]].
  unfold current_bytecode. rewrite Hcode, Hi, getitem_at_len. reflexivity.
Qed.

Lemma unpack_at fr op lo hi :
  at_instruction fr op lo hi ->
  Py.startswith (opname op) "CALL_FUNCTION" = true ->
  unpack_CALL_FUNCTION opname fr
  = Ok (Some (opname op, Py.ord lo, Py.ord hi)).
Proof.
  intros [pre [post [Hcode Hi]]] Hcall.
  unfold unpack_CALL_FUNCTION. rewrite Hcode, Hi, slice_from_app.
  change (Py.getitem (op :: lo :: hi :: post) 0) with (Ok op).
  cbn [rbind]. rewrite Hcall. reflexivity.
Qed.

(** X1. At a call instruction the two bytes after the opcode are the
    counts: the first one the number of positional arguments, the second
    one the number of keyword arguments; the name is the one
    [current_bytecode] reports. *)
Theorem unpack_decodes_operands fr pre op lo hi post :
  co_code (f_code fr) = pre ++ op :: lo :: hi :: post ->
  f_lasti fr = Py.len pre ->
  Py.startswith (opname op) "CALL_FUNCTION" = true ->
  current_bytecode opname fr = Ok (opname op) /\
  unpack_CALL_FUNCTION opname fr
  = Ok (Some (opname op, Py.ord lo, Py.ord hi)).
Proof.
  intros Hcode Hi Hcall.
  assert (Hat : at_instruction fr op lo hi) by (exists pre, post; auto).
  split; [exact (current_bytecode_at _ _ _ _ Hat)|].
  exact (unpack_at _ _ _ _ Hat Hcall).
Qed.

(** X2. With the instruction pointer at or past the end of the code both
    decoders raise [IndexError], and so does a per-instruction
    notification, which leaves the tracer as it was. *)
Theorem decode_past_the_end_raises fr :
  Py.len (co_code (f_code fr)) <= f_lasti fr ->
  current_bytecode opname fr = Raise IndexError /\
  unpack_CALL_FUNCTION opname fr = Raise IndexError /\
  forall w, trace opname fr "line" w = (Raise IndexError, w).
Proof.
  intros Hi.
  assert (Hb : current_bytecode opname fr = Raise IndexError).
  { unfold current_bytecode. rewrite (getitem_beyond _ _ Hi). reflexivity. }
  split; [exact Hb|]. split.
  - unfold unpack_CALL_FUNCTION, Py.slice_from, Py.clamp.
    pose proof (PyFacts.len_nonneg (co_code (f_code fr))) as Hl.
    destruct (Z.ltb_spec (f_lasti fr) 0); [lia|].
    rewrite Z.min_r by lia. unfold Py.len. rewrite Nat2Z.id, skipn_all.
    reflexivity.
  - intros w. unfold trace. cbn [String.eqb Ascii.eqb Bool.eqb].
    unfold mbind, lift. rewrite Hb. reflexivity.
Qed.
End DecodeFacts.

Lemma unpack_decodes_operands_witness :
  current_bytecode opname27
    (frame_at 11 [VBuiltin "f"]) = Ok "CALL_FUNCTION_VAR"%string /\
  unpack_CALL_FUNCTION opname27 (frame_at 11 [VBuiltin "f"])
  = Ok (Some ("CALL_FUNCTION_VAR"%string, 2, 1)).
Proof.
  apply (unpack_decodes_operands opname27 (frame_at 11 [VBuiltin "f"])
           [x65; x00; x00; x83; x00; x00; x47; x48; x65; x01; x00]
           x8c x02 x01 [x01; x64; x00; x00; x53]);
    reflexivity.
Defined.

Lemma decode_past_the_end_raises_witness :
  current_bytecode opname27 (frame_at 19 []) = Raise IndexError /\
  unpack_CALL_FUNCTION opname27 (frame_at 19 []) = Raise IndexError /\
  forall w, trace opname27 (frame_at 19 []) "line" w = (Raise IndexError, w).
Proof.
  apply (decode_past_the_end_raises opname27 (frame_at 19 [])).
  vm_compute. discriminate.
Defined.

(** ** Reading arguments off the stack *)

Lemma positional_args_from_stack_eq view d :
  descriptor view = Some d ->
  positional_args_from_stack view
  = Ok (Py.slice (stack view) (args_start view)
                 (args_start view + positional_args_count d)).
Proof.
  intros Hd. unfold positional_args_from_stack, attr. rewrite Hd. reflexivity.
Qed.

Section StackFacts.
Variable opname : byte -> string.

(** X3. With the variadic-positional flag the positional arguments are
    the explicit slots followed by the elements of the value that sits
    right above the explicit positional and keyword slots; a value there
    that cannot be iterated makes the call fail as iterating it does. *)
Theorem positional_args_variadic fr view d pre pos pairs varargs above :
  ValueStack_init opname fr = Ok view ->
  descriptor view = Some d ->
  stack view = pre ++ pos ++ flat pairs ++ varargs :: above ->
  Py.len pre = args_start view ->
  Py.len pos = positional_args_count d ->
  Py.len pairs = keyword_args_count d ->
  singlestar d = true ->
  positional_args view = (more <- iter varargs ;; Ok (pos ++ more)).
Proof.
  intros Hinit Hd Hs Hpre Hpos Hkw Hstar.
  destruct (ValueStack_init_descriptor opname _ _ _ Hinit Hd)
    as [_ [_ [_ [Hcount _]]]].
  unfold positional_args, positional_args_from_varargs, stack_above_args.
  rewrite (positional_args_from_stack_eq _ _ Hd).
  unfold attr. rewrite Hd. cbn [rbind]. rewrite Hstar.
  rewrite Hs, <- Hpre, <- Hpos, PyFacts.slice_app_mid.
  rewrite Hcount, <- Hpos, <- Hkw, <- len_flat.
  replace (Py.len pre + (Py.len pos + Py.len (flat pairs)) + 0)
    with (Py.len pre + (Py.len pos + (Py.len (flat pairs) + 0))) by lia.
  pose proof (PyFacts.len_nonneg pos).
  pose proof (PyFacts.len_nonneg (flat pairs)).
  rewrite !PyFacts.getitem_app_r by lia.
  reflexivity.
Qed.

(** X4. A stack that ends before the declared number of positional slots
    does not make the explicit extraction fail: the positional arguments
    are whatever slots there are, and the explicit keyword arguments are
    the empty mapping. *)
Theorem short_stack_is_read_silently fr view d pre rest :
  ValueStack_init opname fr = Ok view ->
  descriptor view = Some d ->
  stack view = pre ++ rest ->
  Py.len pre = args_start view ->
  Py.len rest <= positional_args_count d ->
  positional_args_from_stack view = Ok rest /\
  keyword_args_from_stack view = Ok [] /\
  (singlestar d = false -> positional_args view = Ok rest) /\
  (doublestar d = false -> keyword_args view = Ok []).
Proof.
  intros Hinit Hd Hs Hpre Hlen.
  destruct (ValueStack_init_descriptor opname _ _ _ Hinit Hd)
    as [_ [_ [_ [_ [Hp Hk]]]]].
  pose proof (PyFacts.len_nonneg pre) as Hpre0.
  pose proof (PyFacts.len_nonneg rest) as Hrest0.
  assert (Hpos : positional_args_from_stack view = Ok rest).
  { rewrite (positional_args_from_stack_eq _ _ Hd), Hs, <- Hpre.
    rewrite slice_nonneg by lia. f_equal.
    unfold Py.len in *. rewrite Nat2Z.id, skipn_app, skipn_all, Nat.sub_diag.
    cbn [skipn app]. apply firstn_all2. lia. }
  assert (Hkws : keyword_args_from_stack view = Ok []).
  { unfold keyword_args_from_stack, attr. rewrite Hd. cbn [rbind].
    rewrite Hs, <- Hpre. rewrite slice_nonneg by lia.
    rewrite skipn_all2; [now rewrite firstn_nil|].
    rewrite length_app. unfold Py.len in *. lia. }
  repeat split; try assumption.
  - intros Hstar. unfold positional_args, attr.
    rewrite Hpos, Hd. cbn [rbind]. rewrite Hstar. reflexivity.
  - intros Hstar. unfold keyword_args, attr.
    rewrite Hkws, Hd. cbn [rbind]. rewrite Hstar. reflexivity.
Qed.

(** X5. With the variadic-positional flag and no slot above the explicit
    arguments, [positional_args] raises [IndexError]. *)
Theorem variadic_slot_missing_raises view d :
  descriptor view = Some d ->
  singlestar d = true ->
  Py.len (stack view) <= args_start view + args_count d ->
  positional_args view = Raise IndexError.
Proof.
  intros Hd Hstar Hlen.
  unfold positional_args, positional_args_from_varargs, stack_above_args.
  rewrite (positional_args_from_stack_eq _ _ Hd).
  unfold attr. rewrite Hd. cbn [rbind]. rewrite Hstar.
  rewrite getitem_beyond by lia. reflexivity.
Qed.
End StackFacts.

Lemma positional_args_variadic_witness :
  positional_args view_var
  = (more <- iter (VTuple [VInt 3; VInt 4]) ;; Ok ([VInt 1; VInt 2] ++ more)).
Proof.
  apply (positional_args_variadic opname27
           (frame_at 11 (stack view_var)) view_var descriptor_var
           [VBuiltin "f"] [VInt 1; VInt 2] [(VStr "k", VInt 5)]
           (VTuple [VInt 3; VInt 4]) []);
    reflexivity.
Defined.

Lemma short_stack_is_read_silently_witness :
  positional_args_from_stack view_short = Ok [VInt 1] /\
  keyword_args_from_stack view_short = Ok [] /\
  (singlestar descriptor_var = false ->
   positional_args view_short = Ok [VInt 1]) /\
  (doublestar descriptor_var = false -> keyword_args view_short = Ok []).
Proof.
  apply (short_stack_is_read_silently opname27
           (frame_at 11 (stack view_short)) view_short descriptor_var
           [VBuiltin "f"] [VInt 1]);
    try reflexivity.
  vm_compute. discriminate.
Defined.

Lemma variadic_slot_missing_raises_witness :
  positional_args view_short = Raise IndexError.
Proof.
  apply (variadic_slot_missing_raises view_short descriptor_var);
    try reflexivity.
  vm_compute. discriminate.
Defined.

(** ** flatlist_to_dict *)

Lemma dict_set_new d k v :
  ~ In k (map fst d) -> dict_set d k v = d ++ [(k, v)].
Proof.
  induction d as [|[k0 v0] r IH]; cbn; intros Hnew; [reflexivity|].
  destruct (key_eqb k0 k) eqn:E.
  - apply key_eqb_eq in E. tauto.
  - rewrite IH by tauto. reflexivity.
Qed.

Lemma store_pairs_new pairs : forall d,
  hashable_keys pairs = true ->
  NoDup (map fst d ++ map fst pairs) ->
  store_pairs d pairs = Ok (d ++ pairs).
Proof.
  unfold hashable_keys.
  induction pairs as [|[k v] r IH]; intros d Hh Hnd; cbn in *.
  - rewrite app_nil_r. reflexivity.
  - apply andb_true_iff in Hh as [Hk Hr].
    unfold setitem. rewrite Hk. cbn [rbind].
    assert (Hnew : ~ In k (map fst d)).
    { apply NoDup_remove_2 in Hnd. intros Hin. apply Hnd.
      apply in_or_app. left. exact Hin. }
    rewrite (dict_set_new _ _ _ Hnew), IH.
    + rewrite <- app_assoc. reflexivity.
    + exact Hr.
    + rewrite map_app, <- app_assoc. exact Hnd.
Qed.

Lemma store_pairs_unhashable pairs : forall d,
  hashable_keys pairs = false -> store_pairs d pairs = Raise TypeError.
Proof.
  unfold hashable_keys.
  induction pairs as [|[k v] r IH]; intros d Hh; cbn in *; [discriminate|].
  unfold setitem. destruct (hashable k); cbn in *; [|reflexivity].
  apply IH. exact Hh.
Qed.

Lemma evens_flat_snoc pairs k :
  Py.evens (flat pairs ++ [k]) = map fst pairs ++ [k].
Proof.
  induction pairs as [|[a b] r IH]; cbn; [reflexivity|].
  f_equal. exact IH.
Qed.

Lemma evens_cons_flat_snoc pairs k : forall v,
  Py.evens (v :: flat pairs ++ [k]) = v :: map snd pairs.
Proof.
  induction pairs as [|[a b] r IH]; intros v; cbn; [reflexivity|].
  f_equal. apply IH.
Qed.

Lemma zip_longer_left {A B} (l : list (A * B)) (extra : list A) :
  Py.zip (map fst l ++ extra) (map snd l) = l.
Proof.
  unfold Py.zip. induction l as [|[a b] r IH]; cbn.
  - destruct extra; reflexivity.
  - f_equal. exact IH.
Qed.

(** X6. Round trip: the name/value slots of a mapping with distinct,
    hashable names are read back as that mapping, entry for entry. *)
Theorem flatlist_to_dict_roundtrip pairs :
  NoDup (map fst pairs) ->
  hashable_keys pairs = true ->
  flatlist_to_dict (flat pairs) = Ok pairs.
Proof.
  intros Hnd Hh. unfold flatlist_to_dict, dict_of. rewrite zip_flat.
  exact (store_pairs_new pairs [] Hh Hnd).
Qed.

(** X7. A name without a value at the end of the slots is dropped, whatever
    it is: the result is that of the slots before it. *)
Theorem flatlist_to_dict_drops_odd_tail pairs k :
  flatlist_to_dict (flat pairs ++ [k]) = flatlist_to_dict (flat pairs).
Proof.
  unfold flatlist_to_dict. rewrite zip_flat. f_equal.
  unfold Py.odds. rewrite evens_flat_snoc.
  destruct pairs as [|[a b] r]; [reflexivity|].
  change (tl (flat ((a, b) :: r) ++ [k])) with (b :: flat r ++ [k]).
  rewrite evens_cons_flat_snoc.
  exact (zip_longer_left ((a, b) :: r) [k]).
Qed.

(** X8. A list or a dictionary in a name slot makes [flatlist_to_dict]
    raise [TypeError]. *)
Theorem flatlist_to_dict_unhashable_name pairs :
  hashable_keys pairs = false ->
  flatlist_to_dict (flat pairs) = Raise TypeError.
Proof.
  intros Hh. unfold flatlist_to_dict, dict_of. rewrite zip_flat.
  exact (store_pairs_unhashable pairs [] Hh).
Qed.

Lemma flatlist_to_dict_roundtrip_witness :
  flatlist_to_dict (flat [(VStr "x", VInt 1); (VStr "y", VList [])])
  = Ok [(VStr "x", VInt 1); (VStr "y", VList [])].
Proof.
  apply flatlist_to_dict_roundtrip; [|reflexivity].
  repeat constructor; cbn; intuition discriminate.
Defined.

Lemma flatlist_to_dict_unhashable_name_witness :
  flatlist_to_dict (flat [(VStr "x", VInt 1); (VList [], VInt 2)])
  = Raise TypeError.
Proof. apply flatlist_to_dict_unhashable_name. reflexivity. Defined.

(** ** The marker and the rewriter *)

Lemma marker_pairs_inv s :
  (marker_pairs s = true ->
   exists m, s = List.concat (repeat [x01; x01] m)) /\
  (forall a, marker_pairs (a :: s) = true ->
             exists m, a :: s = List.concat (repeat [x01; x01] m)).
Proof.
  induction s as [|b r [IH1 IH2]].
  - split; [intros _; exists 0%nat; reflexivity|].
    intros a H. destruct a; discriminate H.
  - split; [exact (IH2 b)|].
    intros a H. destruct a; try discriminate H.
    destruct b; try discriminate H.
    destruct (IH1 H) as [m ->]. exists (S m). reflexivity.
Qed.

Lemma len_mul {A} (s : list A) n :
  0 <= n -> Py.len (Py.mul s n) = Py.len s * n.
Proof.
  intros Hn. unfold Py.mul. rewrite <- (Z2Nat.id n) at 2 by exact Hn.
  generalize (Z.to_nat n) as m. intros m. unfold Py.len.
  induction m as [|m IH]; cbn [repeat List.concat]; [cbn; lia|].
  rewrite length_app, Nat2Z.inj_add, IH. lia.
Qed.

(** X9. The marker check accepts a line-number table exactly when it is
    one or more copies of the byte pair 1, 1: the tables [rewrite_lnotab]
    writes for code of two bytes or more, and no other. *)
Theorem has_been_rewritten_iff c :
  has_been_rewritten c = true <->
  exists n, 1 <= n /\ co_lnotab c = Py.mul [x01; x01] n.
Proof.
  unfold has_been_rewritten. split.
  - unfold marker_match.
    destruct (co_lnotab c) as [|a [|b r]]; try discriminate.
    + destruct a; discriminate.
    + intros H. destruct a; try discriminate H.
      destruct b; try discriminate H.
      destruct (proj1 (marker_pairs_inv r) H) as [m ->].
      exists (Z.of_nat (S m)). split; [lia|].
      unfold Py.mul. rewrite Nat2Z.id. reflexivity.
  - intros [n [Hn ->]]. apply marker_match_mul. exact Hn.
Qed.

(** X10. Rewriting a code block that carries no marker, has no nested code
    block that carries one, and has two bytes or more in each of them:
    the result and all its nested code blocks carry the marker, the table
    has one pair for each byte after the first, the body fields and the
    number of constants are kept, and the result is detected as rewritten
    ([rewrite_lnotab] returns [None] on it). *)
Theorem rewrite_fresh_tree c :
  fresh c = true ->
  exists c',
    rewrite_lnotab c = Some c' /\
    instrumented c' = true /\
    same_body c c' /\
    Py.len (co_lnotab c') = 2 * (Py.len (co_code c) - 1) /\
    List.length (co_consts c') = List.length (co_consts c) /\
    rewrite_lnotab c' = None.
Proof.
  intros Hf.
  destruct (rewrite_lnotab_fresh c Hf)
    as [c' [Hrw [Hins [Hbody [Htab [_ Hconsts]]]]]].
  exists c'. repeat split; try assumption; try apply Hbody.
  - rewrite Htab. rewrite fresh_eq in Hf.
    apply andb_true_iff in Hf as [Hf _].
    apply andb_true_iff in Hf as [_ Hlen]. apply Z.leb_le in Hlen.
    rewrite len_mul by lia. change (Py.len [x01; x01]) with 2. lia.
  - rewrite Hconsts. apply length_map.
  - apply rewrite_lnotab_done. rewrite instrumented_eq in Hins.
    apply andb_true_iff in Hins as [Hmark _]. exact Hmark.
Qed.

Lemma rewrite_fresh_tree_witness :
  exists c',
    rewrite_lnotab code_nesting = Some c' /\
    instrumented c' = true /\
    same_body code_nesting c' /\
    Py.len (co_lnotab c') = 2 * (Py.len (co_code code_nesting) - 1) /\
    List.length (co_consts c') = List.length (co_consts code_nesting) /\
    rewrite_lnotab c' = None.
Proof. apply rewrite_fresh_tree. reflexivity. Defined.

(** *** rewrite_all *)

Lemma refs_of_cons obj rest :
  refs_of (obj :: rest)
  = match obj with VFunction r => r :: refs_of rest | _ => refs_of rest end.
Proof. destruct obj; reflexivity. Qed.

Lemma func_code_set_other r c w r' :
  r' <> r -> func_code (set_func_code r c w) r' = func_code w r'.
Proof.
  intros Hne. cbn. destruct (Nat.eqb_spec r' r); [contradiction|reflexivity].
Qed.

(** X11. [rewrite_all] over values among which the interpreted functions
    are distinct objects without the marker: every one of them gets the
    rewritten code block, every other function object keeps its own, the
    other values are passed over, and the pending-call stack is not
    touched. *)
Theorem rewrite_all_fresh_functions objects : forall w,
  NoDup (refs_of objects) ->
  (forall r, In r (refs_of objects) ->
             has_been_rewritten (func_code w r) = false) ->
  exists w',
    rewrite_all objects w = (Ok tt, w') /\
    call_stack w' = call_stack w /\
    (forall r, In r (refs_of objects) ->
               rewrite_lnotab (func_code w r) = Some (func_code w' r)) /\
    (forall r, ~ In r (refs_of objects) -> func_code w' r = func_code w r).
Proof.
  induction objects as [|obj rest IH]; intros w Hnd Hfresh.
  - exists w. split; [reflexivity|]. split; [reflexivity|].
    split; [intros r []|reflexivity].
  - rewrite refs_of_cons in Hnd, Hfresh |- *.
    cbn [rewrite_all]. unfold mbind.
    destruct obj as [| | | | | | | |r0];
      try (cbn [has_func_code]; unfold mret; exact (IH w Hnd Hfresh)).
    cbn [has_func_code]. unfold rewrite_function.
    inversion Hnd as [|? ? Hnotin Hnd']; subst.
    pose proof (rewrite_lnotab_eq (func_code w r0)) as E.
    rewrite (Hfresh r0 (or_introl eq_refl)) in E.
    match type of E with _ = Some ?c => set (c1 := c) in E end.
    rewrite E.
    destruct (IH (set_func_code r0 c1 w) Hnd') as [w' [Hrun [Hcs [Hin Hout]]]].
    { intros r Hr. rewrite func_code_set_other.
      - apply Hfresh. right. exact Hr.
      - intros ->. contradiction. }
    exists w'. split; [exact Hrun|]. split; [exact Hcs|]. split.
    + intros r [<-|Hr].
      * rewrite (Hout r0 Hnotin), func_code_set. exact E.
      * rewrite <- (Hin r Hr). rewrite func_code_set_other; [reflexivity|].
        intros ->. contradiction.
    + intros r Hr. rewrite (Hout r) by (intros H; apply Hr; right; exact H).
      apply func_code_set_other. intros ->. apply Hr. left. reflexivity.
Qed.

(** X12. [rewrite_all] over values that include an interpreted function
    whose code block carries the marker raises [TypeError]; the
    pending-call stack is as before. *)
Theorem rewrite_all_marked_function_raises objects : forall w r,
  In (VFunction r) objects ->
  has_been_rewritten (func_code w r) = true ->
  exists w',
    rewrite_all objects w = (Raise TypeError, w') /\
    call_stack w' = call_stack w.
Proof.
  induction objects as [|obj rest IH]; intros w r Hin Hmark; [destruct Hin|].
  cbn [rewrite_all]. unfold mbind.
  destruct (has_func_code obj) eqn:Hfc.
  - destruct obj; try discriminate Hfc. unfold rewrite_function.
    destruct (rewrite_lnotab (func_code w ref)) as [c|] eqn:E.
    + destruct Hin as [[= ->]|Hin].
      { rewrite (rewrite_lnotab_done _ Hmark) in E. discriminate. }
      assert (Hne : r <> ref).
      { intros ->. rewrite (rewrite_lnotab_done _ Hmark) in E.
        discriminate. }
      destruct (IH (set_func_code ref c w) r Hin) as [w' [Hrun Hcs]].
      { rewrite func_code_set_other by exact Hne. exact Hmark. }
      exists w'. split; [exact Hrun|exact Hcs].
    + exists w. split; reflexivity.
  - unfold mret. destruct Hin as [->|Hin]; [discriminate Hfc|].
    exact (IH w r Hin Hmark).
Qed.

Lemma rewrite_all_fresh_functions_witness :
  exists w',
    rewrite_all [VInt 1; VFunction 0; VBuiltin "len"; VFunction 1] world0
    = (Ok tt, w') /\
    call_stack w' = call_stack world0 /\
    (forall r,
       In r (refs_of [VInt 1; VFunction 0; VBuiltin "len"; VFunction 1]) ->
       rewrite_lnotab (func_code world0 r) = Some (func_code w' r)) /\
    (forall r,
       ~ In r (refs_of [VInt 1; VFunction 0; VBuiltin "len"; VFunction 1]) ->
       func_code w' r = func_code world0 r).
Proof.
  apply rewrite_all_fresh_functions.
  - repeat constructor; cbn; intuition discriminate.
  - intros r _. reflexivity.
Defined.

Lemma rewrite_all_marked_function_raises_witness :
  exists w',
    rewrite_all [VInt 1; VFunction 0]
                (snd (rewrite_function (VFunction 0) world0))
    = (Raise TypeError, w') /\
    call_stack w'
    = call_stack (snd (rewrite_function (VFunction 0) world0)).
Proof.
  apply (rewrite_all_marked_function_raises _ _ 0%nat).
  - right. left. reflexivity.
  - reflexivity.
Defined.

(** ** More on the tracer *)

Lemma with_stack_self w : with_stack (call_stack w) w = w.
Proof. destruct w; reflexivity. Qed.

Lemma rewrite_all_no_functions objects w :
  refs_of objects = [] -> rewrite_all objects w = (Ok tt, w).
Proof.
  induction objects as [|obj rest IH]; [reflexivity|].
  rewrite refs_of_cons. cbn [rewrite_all]. unfold mbind.
  destruct obj; try discriminate; intros H; cbn [has_func_code];
    unfold mret; exact (IH H).
Qed.

Section TracerMore.
Variable opname : byte -> string.

(** The offset of a view tells whether the bottom slot was callable. *)
Lemma ValueStack_init_offset fr view :
  ValueStack_init opname fr = Ok view ->
  exists s0 rest,
    get_value_stack fr = s0 :: rest /\
    stack view = s0 :: rest /\
    offset view = if callable s0 then 0 else 1.
Proof.
  unfold ValueStack_init.
  destruct (try_except _ _ _) as [d|]; [|discriminate].
  cbn [rbind].
  destruct (get_value_stack fr) as [|s0 rest]; [discriminate|].
  change (Py.getitem (s0 :: rest) 0) with (Ok s0). cbn [rbind].
  intros [= <-]. exists s0, rest. auto.
Qed.

(** X13. A native call and its return pair up: the per-instruction
    notification that follows the announced call, at an instruction that is
    no call, is answered with the value in the operand-stack slot 0 when
    the bottom slot was callable at the call and slot 1 when it was not,
    and the pending-call stack is again what it was before the call. *)
Theorem native_call_then_return fr w f pa ka w1 fr' bcode :
  trace opname fr "line" w = (Ok (c_call f pa ka), w1) ->
  current_bytecode opname fr' = Ok bcode ->
  Py.startswith bcode "CALL_FUNCTION" = false ->
  exists s0 rest,
    get_value_stack fr = s0 :: rest /\
    forall v,
      Py.getitem (get_value_stack fr') (if callable s0 then 0 else 1) = Ok v ->
      trace opname fr' "line" w1
      = (Ok (c_return v), with_stack (call_stack w) w1).
Proof.
  intros Hcall Hb Hno.
  destruct (trace_c_call_inv opname _ _ _ _ _ _ Hcall)
    as [view [Hview [_ [_ [_ [_ Hcs]]]]]].
  destruct (ValueStack_init_offset _ _ Hview) as [s0 [rest [Hs [_ Hoff]]]].
  exists s0, rest. split; [exact Hs|]. intros v Hv.
  rewrite (trace_line_other opname _ _ _ Hb Hno), Hcs, Hoff.
  unfold Py.append at 1. rewrite PyFacts.getitem_top, PyFacts.pop_append, Hv.
  reflexivity.
Qed.

(** X15. With nothing on the pending-call stack an exception notification
    and a per-instruction notification away from a call instruction raise
    [IndexError] and leave the tracer as it was. *)
Theorem empty_stack_reads_raise w :
  call_stack w = [] ->
  (forall fr, trace opname fr "exception" w = (Raise IndexError, w)) /\
  (forall fr bcode,
     current_bytecode opname fr = Ok bcode ->
     Py.startswith bcode "CALL_FUNCTION" = false ->
     trace opname fr "line" w = (Raise IndexError, w)).
Proof.
  intros Hempty. split.
  - intros fr. rewrite trace_exception, Hempty. reflexivity.
  - intros fr bcode Hb Hno.
    rewrite (trace_line_other opname _ _ _ Hb Hno), Hempty. reflexivity.
Qed.

(** X16. A per-instruction notification at a call instruction never pops:
    whatever it returns or raises, the pending-call stack afterwards is the
    one before or that one with an offset pushed; neither a return nor an
    output statement is reported there, also with a native call pending. *)
Theorem call_site_never_pops fr w bcode :
  current_bytecode opname fr = Ok bcode ->
  Py.startswith bcode "CALL_FUNCTION" = true ->
  (call_stack (snd (trace opname fr "line" w)) = call_stack w \/
   exists off,
     call_stack (snd (trace opname fr "line" w))
     = Py.append (call_stack w) (Some off)) /\
  (forall v, fst (trace opname fr "line" w) <> Ok (c_return v)) /\
  fst (trace opname fr "line" w) <> Ok print_stmt.
Proof.
  intros Hb Hcall.
  destruct (trace opname fr "line" w) as [res w'] eqn:Ht. cbn [fst snd].
  destruct (ValueStack_init opname fr) as [view|x] eqn:Hview.
  2:{ unfold trace in Ht. cbn [String.eqb Ascii.eqb Bool.eqb] in Ht.
      unfold mbind, lift in Ht. rewrite Hb, Hcall, Hview in Ht.
      injection Ht as <- <-. repeat split; try discriminate.
      left. reflexivity. }
  destruct (bottom view) as [f|x] eqn:Hbot.
  2:{ unfold trace in Ht. cbn [String.eqb Ascii.eqb Bool.eqb] in Ht.
      unfold mbind, lift in Ht. rewrite Hb, Hcall, Hview, Hbot in Ht.
      injection Ht as <- <-. repeat split; try discriminate.
      left. reflexivity. }
  rewrite (trace_line_call opname _ _ _ _ _ Hb Hcall Hview Hbot) in Ht.
  destruct (is_c_func f); cbn [negb] in Ht.
  - unfold mbind at 1 in Ht. unfold push in Ht.
    unfold mbind at 1 in Ht. unfold lift at 1 in Ht.
    destruct (positional_args view) as [pa|].
    2:{ injection Ht as <- <-. cbn [call_stack].
        repeat split; try discriminate. right. eexists. reflexivity. }
    unfold mbind at 1 in Ht. unfold lift at 1 in Ht.
    destruct (keyword_args view) as [ka|].
    2:{ injection Ht as <- <-. cbn [call_stack].
        repeat split; try discriminate. right. eexists. reflexivity. }
    unfold mbind at 1 in Ht.
    destruct (rewrite_all _ _) as [[[]|] w2] eqn:Hrw;
      apply rewrite_all_call_stack in Hrw; cbn [call_stack] in Hrw;
      unfold mret in Ht; injection Ht as <- <-;
      (split; [right; eexists; exact Hrw
              |split; [intros v|]; discriminate]).
  - unfold mbind in Ht.
    destruct (rewrite_function f w) as [[[]|] w2] eqn:Hrw;
      apply rewrite_function_call_stack in Hrw;
      unfold mret in Ht; injection Ht as <- <-;
      (split; [left; exact Hrw|split; [intros v|]; discriminate]).
Qed.

(** X17. Away from call instructions the tracer does not touch function
    objects: after a frame-entry, frame-exit or exception notification, a
    notification of another kind, or a per-instruction notification at an
    instruction that is no call, every function has the code block it
    had. *)
Theorem off_call_keeps_functions fr ev w :
  (ev = "line"%string ->
   exists bcode, current_bytecode opname fr = Ok bcode /\
                 Py.startswith bcode "CALL_FUNCTION" = false) ->
  func_code (snd (trace opname fr ev w)) = func_code w.
Proof.
  intros Hline.
  destruct (String.eqb_spec ev "line") as [->|Hl].
  { destruct (Hline eq_refl) as [bcode [Hb Hno]].
    rewrite (trace_line_other opname _ _ _ Hb Hno).
    destruct (Py.getitem (call_stack w) (-1)) as [[off|]|];
      [|destruct (Py.startswith bcode "PRINT_")|]; try reflexivity.
    destruct (Py.pop (call_stack w)) as [[[i|] rest]|]; try reflexivity.
    destruct (Py.getitem (get_value_stack fr) i); reflexivity. }
  destruct (String.eqb_spec ev "call") as [->|Hc]; [reflexivity|].
  destruct (String.eqb_spec ev "return") as [->|Hr].
  { rewrite trace_frame_exit.
    destruct (Py.pop (call_stack w)) as [[x rest]|]; reflexivity. }
  destruct (String.eqb_spec ev "exception") as [->|He].
  { rewrite trace_exception.
    destruct (Py.getitem (call_stack w) (-1)) as [[off|]|]; try reflexivity.
    destruct (Py.pop (call_stack w)) as [[x rest]|]; reflexivity. }
  rewrite (trace_other_event opname fr ev w Hl Hc He Hr). reflexivity.
Qed.

(** X18. The offset is pushed before the arguments are read: when reading
    them raises, at a call instruction with a native callee, [trace] raises
    the same exception and the offset stays on the pending-call stack. *)
Theorem marker_pushed_before_arguments_fail fr w bcode view f e :
  current_bytecode opname fr = Ok bcode ->
  Py.startswith bcode "CALL_FUNCTION" = true ->
  ValueStack_init opname fr = Ok view ->
  bottom view = Ok f ->
  is_c_func f = true ->
  (pa <- positional_args view ;; ka <- keyword_args view ;; Ok (pa, ka))
  = Raise e ->
  trace opname fr "line" w
  = (Raise e, with_stack (Py.append (call_stack w) (Some (offset view))) w).
Proof.
  intros Hb Hcall Hview Hbot Hc Hargs.
  rewrite (trace_line_call opname _ _ _ _ _ Hb Hcall Hview Hbot), Hc.
  cbn [negb]. unfold mbind at 1. unfold push.
  unfold mbind at 1. unfold lift at 1.
  destruct (positional_args view) as [pa|]; cbn [rbind] in Hargs.
  - unfold mbind at 1. unfold lift at 1.
    destruct (keyword_args view) as [ka|]; cbn [rbind] in Hargs;
      [discriminate|].
    injection Hargs as ->. reflexivity.
  - injection Hargs as ->. reflexivity.
Qed.
End TracerMore.

Lemma final_app h1 : forall w h2,
  final w (h1 ++ h2) = final (final w h1) h2.
Proof.
  induction h1 as [|s r IH]; intros w h2; [reflexivity|].
  cbn [app]. rewrite !final_cons. apply IH.
Qed.

Section Nesting.
Variable opname : byte -> string.

Lemma run_app a : forall b w,
  succeeded (run opname a w) = true ->
  run opname (a ++ b) w
  = run opname a w ++ run opname b (final w (run opname a w)).
Proof.
  induction a as [|n r IH]; intros b w Hok; [reflexivity|].
  cbn [run app] in *.
  destruct (fst (trace opname (fst n) (snd n) w)) eqn:E.
  - cbn [succeeded forallb outcome andb] in Hok.
    rewrite final_cons. cbn [after app]. f_equal. apply IH. exact Hok.
  - cbn [succeeded forallb outcome andb] in Hok. discriminate Hok.
Qed.

Lemma run_entries frs : forall w,
  map outcome (run opname (entries frs) w)
  = repeat (Ok NoEvent) (List.length frs) /\
  final w (run opname (entries frs) w)
  = with_stack (call_stack w ++ repeat None (List.length frs)) w.
Proof.
  induction frs as [|fr r IH]; intros w.
  - cbn. rewrite app_nil_r, with_stack_self. split; reflexivity.
  - cbn [entries map run fst snd List.length repeat].
    rewrite trace_frame_entry. cbn [fst snd]. rewrite final_cons.
    cbn [after map outcome].
    destruct (IH (with_stack (Py.append (call_stack w) None) w)) as [Ho Hf].
    fold (entries r). rewrite Ho, Hf. split; [reflexivity|].
    unfold with_stack, Py.append. cbn [call_stack func_code].
    rewrite <- app_assoc. reflexivity.
Qed.

Lemma run_exits frs : forall w below,
  call_stack w = below ++ repeat None (List.length frs) ->
  map outcome (run opname (exits frs) w)
  = repeat (Ok NoEvent) (List.length frs) /\
  final w (run opname (exits frs) w) = with_stack below w.
Proof.
  induction frs as [|fr r IH]; intros w below Hcs.
  - cbn in *. rewrite app_nil_r in Hcs. rewrite <- Hcs, with_stack_self.
    split; reflexivity.
  - cbn [exits map run fst snd List.length repeat] in *.
    rewrite repeat_cons, app_assoc in Hcs.
    rewrite trace_frame_exit, Hcs.
    change ((below ++ repeat None (List.length r)) ++ [None])
      with (Py.append (below ++ repeat None (List.length r)) (@None Z)).
    rewrite PyFacts.pop_append. cbn [fst snd]. rewrite final_cons.
    cbn [after map outcome]. fold (exits r).
    destruct (IH (with_stack (below ++ repeat None (List.length r)) w) below
                 eq_refl) as [Ho Hf].
    rewrite Ho, Hf. split; reflexivity.
Qed.

(** X14. Interpreted frames nest: after any number of frame-entry
    notifications followed by as many frame-exit notifications no event
    was reported and the tracer and the function objects are what they
    were. *)
Theorem nested_frames_unwind frs frs' w :
  List.length frs' = List.length frs ->
  map outcome (run opname (entries frs ++ exits frs') w)
  = repeat (Ok NoEvent) (List.length frs + List.length frs') /\
  final w (run opname (entries frs ++ exits frs') w) = w.
Proof.
  intros Hlen.
  destruct (run_entries frs w) as [Ho Hf].
  assert (Hok : succeeded (run opname (entries frs) w) = true).
  { unfold succeeded. rewrite forallb_forall. intros s Hs.
    apply (in_map outcome) in Hs. rewrite Ho in Hs.
    apply repeat_spec in Hs. rewrite Hs. reflexivity. }
  rewrite (run_app _ _ _ Hok), map_app, Ho, Hf.
  destruct (run_exits frs'
              (with_stack (call_stack w ++ repeat None (List.length frs)) w)
              (call_stack w)) as [Ho' Hf'].
  { rewrite Hlen. reflexivity. }
  rewrite Ho'. split; [symmetry; apply repeat_app|].
  rewrite final_app, Hf, Hf'. exact (with_stack_self w).
Qed.
End Nesting.

Section EndToEnd.
Variable opname : byte -> string.

(** X19. The first call of an interpreted function under the tracer: with
    the function in the bottom slot at a call instruction, and its code
    block (with the nested ones) not rewritten yet, no event is reported,
    nothing is pushed, the function gets a code block that carries the
    marker throughout and has the body it had, and no other function
    object changes. *)
Theorem first_call_instruments fr w op lo hi r rest :
  at_instruction fr op lo hi ->
  Py.startswith (opname op) "CALL_FUNCTION" = true ->
  get_value_stack fr = VFunction r :: rest ->
  fresh (func_code w r) = true ->
  exists w',
    trace opname fr "line" w = (Ok NoEvent, w') /\
    call_stack w' = call_stack w /\
    instrumented (func_code w' r) = true /\
    same_body (func_code w r) (func_code w' r) /\
    forall r', r' <> r -> func_code w' r' = func_code w r'.
Proof.
  intros Hat Hcall Hs Hfresh.
  pose proof (current_bytecode_at opname _ _ _ _ Hat) as Hb.
  pose proof (ValueStack_init_call opname _ _ _ _ _ _
                (unpack_at opname _ _ _ _ Hat Hcall) Hs) as Hview.
  destruct (rewrite_lnotab_fresh _ Hfresh) as [c' [Hrw [Hins [Hbody _]]]].
  exists (set_func_code r c' w).
  split.
  - apply (trace_interpreted_callee opname _ _ _ _ _ _ Hb Hcall Hview);
      [reflexivity|exact Hrw].
  - rewrite func_code_set. repeat split; try assumption; try apply Hbody.
    intros r' Hne. apply func_code_set_other. exact Hne.
Qed.

(** X20. A plain call of a native function, from the frame to the event:
    with the callee in the bottom slot, followed by as many positional
    slots as the first operand byte says and as many name/value pairs as
    the second one says, no variadic flag in the instruction name and no
    interpreted function among the arguments, [trace] reports the call
    with exactly those positional arguments and that keyword mapping,
    pushes offset 0 and changes nothing else. *)
Theorem native_call_end_to_end fr w op lo hi callee pos pairs :
  at_instruction fr op lo hi ->
  Py.startswith (opname op) "CALL_FUNCTION" = true ->
  Py.contains "_VAR" (opname op) = false ->
  Py.contains "_KW" (opname op) = false ->
  get_value_stack fr = callee :: pos ++ flat pairs ->
  callable callee = true ->
  is_c_func callee = true ->
  Py.len pos = Py.ord lo ->
  Py.len pairs = Py.ord hi ->
  NoDup (map fst pairs) ->
  hashable_keys pairs = true ->
  refs_of (pos ++ map snd pairs) = [] ->
  trace opname fr "line" w
  = (Ok (c_call callee pos pairs),
     with_stack (Py.append (call_stack w) (Some 0)) w).
Proof.
  intros Hat Hcall Hvar Hkw Hs Hcallable Hc Hpos Hpairs Hnd Hh Hrefs.
  pose proof (current_bytecode_at opname _ _ _ _ Hat) as Hb.
  pose proof (ValueStack_init_call opname _ _ _ _ _ _
                (unpack_at opname _ _ _ _ Hat Hcall) Hs) as Hview.
  rewrite Hvar, Hkw, Hcallable in Hview.
  match type of Hview with _ = Ok ?v => set (view := v) in Hview end.
  assert (Hpa : positional_args view = Ok pos).
  { unfold positional_args, positional_args_from_stack, attr, view.
    cbn [stack descriptor args_start positional_args_count singlestar rbind].
    change (0 + 1) with (Py.len [callee]). rewrite <- Hpos.
    change (callee :: pos ++ flat pairs) with ([callee] ++ pos ++ flat pairs).
    rewrite PyFacts.slice_app_mid. reflexivity. }
  assert (Hka : keyword_args view = Ok pairs).
  { unfold keyword_args, keyword_args_from_stack, attr, view.
    cbn [stack descriptor args_start positional_args_count
         keyword_args_count doublestar rbind].
    change (0 + 1) with (Py.len [callee]).
    rewrite <- Hpos, <- Hpairs, <- len_flat, <- PyFacts.len_app.
    replace (callee :: pos ++ flat pairs)
      with (([callee] ++ pos) ++ flat pairs ++ [])
      by (rewrite app_nil_r, <- app_assoc; reflexivity).
    rewrite PyFacts.slice_app_mid.
    unfold flatlist_to_dict, dict_of.
    rewrite zip_flat, (store_pairs_new pairs [] Hh Hnd). reflexivity. }
  apply (trace_native_callee opname _ _ _ view _ _ _ _ Hb Hcall Hview);
    try assumption.
  - unfold bottom, view. cbn [stack offset]. reflexivity.
  - unfold view. cbn [offset]. unfold values.
    apply rewrite_all_no_functions. exact Hrefs.
Qed.

(** X21. At a call instruction with nothing on the operand stack the view
    cannot be built: the constructor and the per-instruction notification
    raise [IndexError], and the tracer is left as it was. *)
Theorem call_with_empty_operand_stack_raises fr op lo hi :
  at_instruction fr op lo hi ->
  Py.startswith (opname op) "CALL_FUNCTION" = true ->
  get_value_stack fr = [] ->
  ValueStack_init opname fr = Raise IndexError /\
  forall w, trace opname fr "line" w = (Raise IndexError, w).
Proof.
  intros Hat Hcall Hs.
  assert (Hview : ValueStack_init opname fr = Raise IndexError).
  { unfold ValueStack_init.
    rewrite (unpack_at opname _ _ _ _ Hat Hcall), Hs. reflexivity. }
  split; [exact Hview|]. intros w.
  unfold trace. cbn [String.eqb Ascii.eqb Bool.eqb]. unfold mbind, lift.
  rewrite (current_bytecode_at opname _ _ _ _ Hat), Hcall, Hview.
  reflexivity.
Qed.
End EndToEnd.

Lemma native_call_then_return_witness :
  exists s0 rest,
    get_value_stack (frame_at 11 (stack view_var)) = s0 :: rest /\
    forall v,
      Py.getitem (get_value_stack (frame_at 14 [VInt 9]))
                 (if callable s0 then 0 else 1) = Ok v ->
      trace opname27 (frame_at 14 [VInt 9]) "line"
            (with_stack [Some 0] world0)
      = (Ok (c_return v),
         with_stack (call_stack world0) (with_stack [Some 0] world0)).
Proof.
  apply (native_call_then_return opname27 (frame_at 11 (stack view_var))
           world0 (VBuiltin "f") [VInt 1; VInt 2; VInt 3; VInt 4]
           [(VStr "k", VInt 5)] (with_stack [Some 0] world0)
           (frame_at 14 [VInt 9]) "POP_TOP");
    reflexivity.
Defined.

Lemma nested_frames_unwind_witness :
  map outcome
      (run opname27 (entries [frame_at 0 []; frame_at 0 []]
                     ++ exits [frame_at 18 [VNone]; frame_at 18 [VNone]])
           world0)
  = repeat (Ok NoEvent) (2 + 2) /\
  final world0
        (run opname27 (entries [frame_at 0 []; frame_at 0 []]
                       ++ exits [frame_at 18 [VNone]; frame_at 18 [VNone]])
             world0)
  = world0.
Proof.
  apply (nested_frames_unwind opname27 [frame_at 0 []; frame_at 0 []]
           [frame_at 18 [VNone]; frame_at 18 [VNone]] world0).
  reflexivity.
Defined.

Lemma empty_stack_reads_raise_witness :
  (forall fr, trace opname27 fr "exception" world0 = (Raise IndexError, world0))
  /\
  (forall fr bcode,
     current_bytecode opname27 fr = Ok bcode ->
     Py.startswith bcode "CALL_FUNCTION" = false ->
     trace opname27 fr "line" world0 = (Raise IndexError, world0)).
Proof. apply (empty_stack_reads_raise opname27 world0). reflexivity. Defined.

Lemma call_site_never_pops_witness :
  (call_stack (snd (trace opname27 (frame_at 3 [VBuiltin "g"]) "line"
                          (with_stack [None; Some 0] world0)))
   = call_stack (with_stack [None; Some 0] world0) \/
   exists off,
     call_stack (snd (trace opname27 (frame_at 3 [VBuiltin "g"]) "line"
                            (with_stack [None; Some 0] world0)))
     = Py.append (call_stack (with_stack [None; Some 0] world0)) (Some off))
  /\
  (forall v,
     fst (trace opname27 (frame_at 3 [VBuiltin "g"]) "line"
                (with_stack [None; Some 0] world0)) <> Ok (c_return v)) /\
  fst (trace opname27 (frame_at 3 [VBuiltin "g"]) "line"
             (with_stack [None; Some 0] world0)) <> Ok print_stmt.
Proof.
  apply (call_site_never_pops opname27 (frame_at 3 [VBuiltin "g"])
           (with_stack [None; Some 0] world0) "CALL_FUNCTION");
    reflexivity.
Defined.

Lemma off_call_keeps_functions_witness :
  func_code (snd (trace opname27 (frame_at 14 [VInt 9]) "line"
                        (with_stack [None; Some 0] world0)))
  = func_code (with_stack [None; Some 0] world0).
Proof.
  apply (off_call_keeps_functions opname27).
  intros _. exists "POP_TOP"%string. split; reflexivity.
Defined.

Lemma marker_pushed_before_arguments_fail_witness :
  trace opname27 (frame_at 11 (stack view_short)) "line" world0
  = (Raise IndexError,
     with_stack (Py.append (call_stack world0) (Some (offset view_short)))
                world0).
Proof.
  apply (marker_pushed_before_arguments_fail opname27 _ _ "CALL_FUNCTION_VAR"
           view_short (VBuiltin "f") IndexError);
    reflexivity.
Defined.

Lemma first_call_instruments_witness :
  exists w',
    trace opname27 (frame_at 3 [VFunction 0]) "line" world0 = (Ok NoEvent, w')
    /\
    call_stack w' = call_stack world0 /\
    instrumented (func_code w' 0%nat) = true /\
    same_body (func_code world0 0%nat) (func_code w' 0%nat) /\
    forall r', r' <> 0%nat -> func_code w' r' = func_code world0 r'.
Proof.
  apply (first_call_instruments opname27 (frame_at 3 [VFunction 0]) world0
           x83 x00 x00 0%nat []); try reflexivity.
  exists [x65; x00; x00],
         [x47; x48; x65; x01; x00; x8c; x02; x01; x01; x64; x00; x00; x53].
  split; reflexivity.
Defined.

Lemma native_call_end_to_end_witness :
  trace opname27 frame_plain "line" world0
  = (Ok (c_call (VBuiltin "f") [VInt 1] [(VStr "x", VInt 2)]),
     with_stack (Py.append (call_stack world0) (Some 0)) world0).
Proof.
  apply (native_call_end_to_end opname27 frame_plain world0 x83 x01 x01
           (VBuiltin "f") [VInt 1] [(VStr "x", VInt 2)]);
    try reflexivity.
  - exists [], []. split; reflexivity.
  - repeat constructor; cbn; intuition.
Defined.

Lemma call_with_empty_operand_stack_raises_witness :
  ValueStack_init opname27 (frame_at 3 []) = Raise IndexError /\
  forall w, trace opname27 (frame_at 3 []) "line" w = (Raise IndexError, w).
Proof.
  apply (call_with_empty_operand_stack_raises opname27 (frame_at 3 [])
           x83 x00 x00); try reflexivity.
  exists [x65; x00; x00],
         [x47; x48; x65; x01; x00; x8c; x02; x01; x01; x64; x00; x00; x53].
  split; reflexivity.
Defined.
